(** * advision-backend: analytics roll-up, A/B significance and weekly advice

    A shallow embedding of the numerical core of the backend:

    - [core/models.py]: [DailyAnalytics.save], the [ctr] and
      [conversion_rate] properties of [ABTestVariation],
      [CampaignAnalyticsSummary.update_metrics] and
      [CampaignAnalyticsSummary._calculate_performance_score];
    - [core/services/ab_testing.py]: the whole [ABTestingService];
    - [core/views.py]: [WeeklyReportView._generate_weekly_recommendations].

    Python [int] is [Z]; Python [float] is IEEE binary64, taken from the
    executable specification [SpecFloat] (precision 53, [emax] 1024) so that
    every rounding of the source is computed, not approximated; a
    [DecimalField] with two decimal places is a number of hundredths in [Z];
    exceptions are carried by a small error monad. *)

From Stdlib Require Import ZArith List String Ascii Bool Lia.
From Stdlib Require Import Floats.SpecFloat.
From Stdlib Require Import Sorting.Sorted Sorting.Permutation DecimalString.
Import ListNotations.

Local Open Scope string_scope.
Local Open Scope list_scope.
Local Open Scope Z_scope.

(* ================================================================= *)
(** ** Python runtime: exceptions, numbers, rounding, formatting *)

Module Py.

(** The exceptions the modelled code can let escape. *)
Inductive exn : Type :=
| ZeroDivisionError
| OverflowError
| ValueError
| AttributeError.

Inductive outcome (A : Type) : Type :=
| Ok (a : A)
| Raise (e : exn).
Arguments Ok {A} a.
Arguments Raise {A} e.

Definition bind {A B : Type} (c : outcome A) (k : A -> outcome B) : outcome B :=
  match c with
  | Ok a => k a
  | Raise e => Raise e
  end.

(** [for x in l: ys.append(f x)], stopping at the first exception. *)
Fixpoint mapM {A B : Type} (f : A -> outcome B) (l : list A) : outcome (list B) :=
  match l with
  | [] => Ok []
  | x :: t =>
      bind (f x) (fun y => bind (mapM f t) (fun ys => Ok (y :: ys)))
  end.

(** *** binary64 *)

Definition prec : Z := 53.
Definition emax : Z := 1024.
Definition float : Type := spec_float.

Definition fsub : float -> float -> float := SFsub prec emax.
Definition fmul : float -> float -> float := SFmul prec emax.
Definition fdiv : float -> float -> float := SFdiv prec emax.
Definition fabs : float -> float := SFabs.
Definition fltb : float -> float -> bool := SFltb.

(** An integer as an unrounded significand with exponent 0.  [SFdiv] and
    [binary_normalize] round their result, so [fdiv (raw n) (raw d)] is the
    binary64 nearest to the rational [n/d] (ties to even). *)
Definition raw (z : Z) : float :=
  match z with
  | Z0 => S754_zero false
  | Zpos p => S754_finite false p 0
  | Zneg p => S754_finite true p 0
  end.

Definition is_inf (x : float) : bool :=
  match x with
  | S754_infinity _ => true
  | _ => false
  end.

Definition is_zero (x : float) : bool :=
  match x with
  | S754_zero _ => true
  | _ => false
  end.

(** [float(n)] for an [int]: nearest binary64, [OverflowError] beyond the
    range. *)
Definition float_of_int (z : Z) : outcome float :=
  let f := binary_normalize prec emax z 0 false in
  if is_inf f then Raise OverflowError else Ok f.

(** An integer literal met by a float operation ([x * 100], [1 - p]):
    small enough to be exact. *)
Definition lit (z : Z) : float := binary_normalize prec emax z 0 false.

(** A float literal with a short decimal expansion: [dec n k] is the
    binary64 nearest to [n / 10^k]. *)
Definition dec (n : Z) (k : Z) : float := fdiv (raw n) (raw (10 ^ k)).

(** [a / b] on two [int]s (true division, correctly rounded). *)
Definition int_truediv (a b : Z) : outcome float :=
  if b =? 0 then Raise ZeroDivisionError
  else
    let q := fdiv (raw a) (raw b) in
    if is_inf q then Raise OverflowError else Ok q.

(** [x / y] on two [float]s. *)
Definition float_truediv (x y : float) : outcome float :=
  if is_zero y then Raise ZeroDivisionError else Ok (fdiv x y).

(** Nearest integer to [n / d] for [d > 0], ties to even. *)
Definition round_half_even (n d : Z) : Z :=
  let q := n / d in
  let r := n mod d in
  match 2 * r ?= d with
  | Lt => q
  | Gt => q + 1
  | Eq => if Z.even q then q else q + 1
  end.

(** [|x| * scale] rounded to an integer, ties to even, on the exact value
    of a finite [x = m * 2^e]. *)
Definition scaled_nearest (scale : Z) (m : positive) (e : Z) : Z :=
  match e with
  | Zneg p => round_half_even (Zpos m * scale) (2 ^ Zpos p)
  | _ => Zpos m * scale * 2 ^ e
  end.

(** [round(x, 2)] on a [float]: the decimal with two places nearest to the
    exact value of [x] (ties to even), read back as the nearest binary64. *)
Definition round2 (x : float) : float :=
  match x with
  | S754_finite s m e =>
      match scaled_nearest 100 m e with
      | Zpos n => fdiv (S754_finite s n 0) (raw 100)
      | _ => S754_zero s
      end
  | _ => x
  end.

(** *** Numbers as the code meets them: [int] or [float] *)

Inductive num : Type :=
| PyInt (z : Z)
| PyFloat (f : float).

Definition to_float (a : num) : outcome float :=
  match a with
  | PyInt z => float_of_int z
  | PyFloat f => Ok f
  end.

(** Python compares an [int] with a [float] on their exact values. *)
Definition float_cmp_int (f : float) (z : Z) : option comparison :=
  match f with
  | S754_nan => None
  | S754_infinity s => Some (if s then Lt else Gt)
  | S754_zero _ => Some (0 ?= z)
  | S754_finite s m e =>
      let sm := cond_Zopp s (Zpos m) in
      Some match e with
           | Zneg p => sm ?= z * 2 ^ Zpos p
           | _ => sm * 2 ^ e ?= z
           end
  end.

Definition num_compare (a b : num) : option comparison :=
  match a, b with
  | PyInt x, PyInt y => Some (x ?= y)
  | PyFloat x, PyFloat y => SFcompare x y
  | PyFloat x, PyInt y => float_cmp_int x y
  | PyInt x, PyFloat y => option_map CompOpp (float_cmp_int y x)
  end.

(** [a < b], [a > b], [a >= b]; every comparison with a NaN is false. *)
Definition num_lt (a b : num) : bool :=
  match num_compare a b with
  | Some Lt => true
  | _ => false
  end.

Definition num_gt (a b : num) : bool := num_lt b a.

Definition num_ge (a b : num) : bool :=
  match num_compare a b with
  | Some (Gt | Eq) => true
  | _ => false
  end.

(** [max(a, b)]: the first argument unless the second is greater. *)
Definition num_max (a b : num) : num := if num_gt b a then b else a.

Definition num_sub (a b : num) : outcome num :=
  match a, b with
  | PyInt x, PyInt y => Ok (PyInt (x - y))
  | _, _ =>
      bind (to_float a) (fun x =>
      bind (to_float b) (fun y => Ok (PyFloat (fsub x y))))
  end.

Definition num_abs (a : num) : num :=
  match a with
  | PyInt x => PyInt (Z.abs x)
  | PyFloat x => PyFloat (fabs x)
  end.

Definition num_mul (a b : num) : outcome num :=
  match a, b with
  | PyInt x, PyInt y => Ok (PyInt (x * y))
  | _, _ =>
      bind (to_float a) (fun x =>
      bind (to_float b) (fun y => Ok (PyFloat (fmul x y))))
  end.

Definition num_truediv (a b : num) : outcome num :=
  match a, b with
  | PyInt x, PyInt y => bind (int_truediv x y) (fun q => Ok (PyFloat q))
  | _, _ =>
      bind (to_float a) (fun x =>
      bind (to_float b) (fun y =>
      bind (float_truediv x y) (fun q => Ok (PyFloat q))))
  end.

(** *** Formatting *)

(** [str(n)] for an [int]. *)
Definition str_int (z : Z) : string := NilZero.string_of_int (Z.to_int z).

(** [format(x, '.1f')] for a [float]. *)
Definition format_1f_float (x : float) : string :=
  match x with
  | S754_nan => "nan"
  | S754_infinity s => if s then "-inf" else "inf"
  | S754_zero s => if s then "-0.0" else "0.0"
  | S754_finite s m e =>
      let n := scaled_nearest 10 m e in
      ((if s then "-" else "") ++ str_int (n / 10) ++ "." ++ str_int (n mod 10))%string
  end.

(** [format(a, '.1f')]: an [int] is converted to [float] first. *)
Definition format_1f (a : num) : outcome string :=
  bind (to_float a) (fun x => Ok (format_1f_float x)).

End Py.

Import Py.

Notation "x <- c ;; k" := (bind c (fun x => k))
  (at level 61, c at next level, right associativity).

(* ================================================================= *)
(** ** core/models.py *)

(** The value held by a [DecimalField(decimal_places=2)] attribute: a
    [Decimal] with two places (counted in hundredths) once it has been read
    from the database, or the number that Python code assigned to it. *)
Module DecimalField.

Inductive t : Type :=
| Decimal (hundredths : Z)
| Number (n : num).

(** [float(v)] *)
Definition to_float (v : t) : outcome float :=
  match v with
  | Decimal c =>
      let f := dec c 2 in
      if is_inf f then Raise OverflowError else Ok f
  | Number n => Py.to_float n
  end.

(** [v > 0] *)
Definition gt0 (v : t) : bool :=
  match v with
  | Decimal c => 0 <? c
  | Number n => num_gt n (PyInt 0)
  end.

End DecimalField.

Module DailyAnalytics.

Record t : Type := mk {
  impressions : Z;
  clicks : Z;
  conversions : Z;
  spend : DecimalField.t;
  ctr : num;
  cpc : DecimalField.t;
  cpa : DecimalField.t
}.

Definition set_ctr (self : t) (v : num) : t :=
  mk (impressions self) (clicks self) (conversions self) (spend self)
     v (cpc self) (cpa self).

Definition set_cpc (self : t) (v : DecimalField.t) : t :=
  mk (impressions self) (clicks self) (conversions self) (spend self)
     (ctr self) v (cpa self).

Definition set_cpa (self : t) (v : DecimalField.t) : t :=
  mk (impressions self) (clicks self) (conversions self) (spend self)
     (ctr self) (cpc self) v.

(** [spend / n] rounded to two decimals, for [round(float(self.spend) / n, 2)]. *)
Definition spend_per (self : t) (n : Z) : outcome float :=
  x <- DecimalField.to_float (spend self) ;;
  d <- float_of_int n ;;
  q <- float_truediv x d ;;
  Ok (round2 q).

(** [DailyAnalytics.save]: the three guarded assignments, then the
    object as [super().save()] receives it. *)
Definition save (self : t) : outcome t :=
  self <- (if 0 <? impressions self then
             q <- int_truediv (clicks self) (impressions self) ;;
             Ok (set_ctr self (PyFloat (round2 (fmul q (lit 100)))))
           else Ok self) ;;
  self <- (if 0 <? clicks self then
             v <- spend_per self (clicks self) ;;
             Ok (set_cpc self (DecimalField.Number (PyFloat v)))
           else Ok self) ;;
  self <- (if 0 <? conversions self then
             v <- spend_per self (conversions self) ;;
             Ok (set_cpa self (DecimalField.Number (PyFloat v)))
           else Ok self) ;;
  Ok self.

(** The write path of [generate_analytics] on a date that already has a
    record: [setattr] of the four counters on the fetched object, then
    [save()]. *)
Definition overwrite_counters (existing : t)
    (new_impressions new_clicks new_conversions : Z)
    (new_spend : DecimalField.t) : outcome t :=
  save (mk new_impressions new_clicks new_conversions new_spend
           (ctr existing) (cpc existing) (cpa existing)).

(** A record of [campaign.daily_analytics.all()]: the columns the roll-up
    reads, as the database returns them ([spend] in hundredths). *)
Record row : Type := mk_row {
  row_impressions : Z;
  row_clicks : Z;
  row_conversions : Z;
  row_spend : Z
}.

End DailyAnalytics.

Module CampaignAnalyticsSummary.

Record t : Type := mk {
  total_impressions : Z;
  total_clicks : Z;
  total_conversions : Z;
  total_spend : DecimalField.t;
  avg_ctr : num;
  avg_cpc : DecimalField.t;
  avg_conversion_rate : num;
  roas : num;
  performance_score : Z
}.

(** The field defaults of the model (all [default=0]). *)
Definition fresh : t :=
  mk 0 0 0 (DecimalField.Number (PyInt 0)) (PyInt 0)
     (DecimalField.Number (PyInt 0)) (PyInt 0) (PyInt 0) 0.

(** [sum(xs)] over [int]s: a left fold from 0. *)
Definition sum_int (xs : list Z) : Z := fold_left Z.add xs 0.

(** [sum(d.spend for d in daily_data)]: the [int] 0 with which [sum]
    starts when there is no record, a [Decimal] otherwise (the additions
    are exact as long as the total has no more than the 28 digits of the
    default decimal context). *)
Definition sum_spend (daily_data : list DailyAnalytics.row) : DecimalField.t :=
  match daily_data with
  | [] => DecimalField.Number (PyInt 0)
  | _ => DecimalField.Decimal
           (sum_int (map DailyAnalytics.row_spend daily_data))
  end.

Definition set_totals (self : t) (i c v : Z) (s : DecimalField.t) : t :=
  mk i c v s (avg_ctr self) (avg_cpc self) (avg_conversion_rate self)
     (roas self) (performance_score self).

Definition set_avg_ctr (self : t) (x : num) : t :=
  mk (total_impressions self) (total_clicks self) (total_conversions self)
     (total_spend self) x (avg_cpc self) (avg_conversion_rate self)
     (roas self) (performance_score self).

Definition set_avg_cpc (self : t) (x : DecimalField.t) : t :=
  mk (total_impressions self) (total_clicks self) (total_conversions self)
     (total_spend self) (avg_ctr self) x (avg_conversion_rate self)
     (roas self) (performance_score self).

Definition set_avg_conversion_rate (self : t) (x : num) : t :=
  mk (total_impressions self) (total_clicks self) (total_conversions self)
     (total_spend self) (avg_ctr self) (avg_cpc self) x
     (roas self) (performance_score self).

Definition set_roas (self : t) (x : num) : t :=
  mk (total_impressions self) (total_clicks self) (total_conversions self)
     (total_spend self) (avg_ctr self) (avg_cpc self)
     (avg_conversion_rate self) x (performance_score self).

Definition set_performance_score (self : t) (x : Z) : t :=
  mk (total_impressions self) (total_clicks self) (total_conversions self)
     (total_spend self) (avg_ctr self) (avg_cpc self)
     (avg_conversion_rate self) (roas self) x.

Definition _calculate_performance_score (self : t) : Z :=
  let score := 0 in
  let score :=
    if num_ge (avg_ctr self) (PyInt 5) then score + 30
    else if num_ge (avg_ctr self) (PyInt 3) then score + 20
    else if num_ge (avg_ctr self) (PyInt 1) then score + 10
    else score in
  let score :=
    if num_ge (avg_conversion_rate self) (PyInt 10) then score + 30
    else if num_ge (avg_conversion_rate self) (PyInt 5) then score + 20
    else if num_ge (avg_conversion_rate self) (PyInt 2) then score + 10
    else score in
  let score :=
    if num_ge (roas self) (PyInt 5) then score + 40
    else if num_ge (roas self) (PyInt 3) then score + 30
    else if num_ge (roas self) (PyInt 2) then score + 20
    else if num_ge (roas self) (PyInt 1) then score + 10
    else score in
  Z.min score 100.

(** [update_metrics]; [daily_data] is the result of
    [self.campaign.daily_analytics.all()].  The value returned is the
    object handed to [self.save()]. *)
Definition update_metrics (self : t) (daily_data : list DailyAnalytics.row)
  : outcome t :=
  let self :=
    set_totals self
      (sum_int (map DailyAnalytics.row_impressions daily_data))
      (sum_int (map DailyAnalytics.row_clicks daily_data))
      (sum_int (map DailyAnalytics.row_conversions daily_data))
      (sum_spend daily_data) in
  self <- (if 0 <? total_impressions self then
             q <- int_truediv (total_clicks self) (total_impressions self) ;;
             Ok (set_avg_ctr self (PyFloat (round2 (fmul q (lit 100)))))
           else Ok self) ;;
  self <- (if 0 <? total_clicks self then
             x <- DecimalField.to_float (total_spend self) ;;
             d <- float_of_int (total_clicks self) ;;
             q <- float_truediv x d ;;
             let self :=
               set_avg_cpc self (DecimalField.Number (PyFloat (round2 q))) in
             r <- int_truediv (total_conversions self) (total_clicks self) ;;
             Ok (set_avg_conversion_rate self
                   (PyFloat (round2 (fmul r (lit 100)))))
           else Ok self) ;;
  self <- (if DecimalField.gt0 (total_spend self) then
             let revenue := total_conversions self * 50 in
             x <- DecimalField.to_float (total_spend self) ;;
             n <- float_of_int revenue ;;
             q <- float_truediv n x ;;
             Ok (set_roas self (PyFloat (round2 q)))
           else Ok self) ;;
  Ok (set_performance_score self (_calculate_performance_score self)).

End CampaignAnalyticsSummary.

Module ABTestVariation.

Record t : Type := mk {
  name : string;
  impressions : Z;
  clicks : Z;
  conversions : Z;
  spend : DecimalField.t
}.

(** The [ctr] property. *)
Definition ctr (self : t) : outcome num :=
  if impressions self =? 0 then Ok (PyInt 0)
  else
    q <- int_truediv (clicks self) (impressions self) ;;
    Ok (PyFloat (round2 (fmul q (lit 100)))).

(** The [conversion_rate] property. *)
Definition conversion_rate (self : t) : outcome num :=
  if clicks self =? 0 then Ok (PyInt 0)
  else
    q <- int_truediv (conversions self) (clicks self) ;;
    Ok (PyFloat (round2 (fmul q (lit 100)))).

End ABTestVariation.

Module ABTest.

(** The fields of [ABTest] that the service reads or writes, with the
    related [variations] rows in insertion order. *)
Record t : Type := mk {
  status : string;
  success_metric : string;
  min_sample_size : Z;
  winner : option string;
  is_significant : bool;
  p_value : option float;
  variations : list ABTestVariation.t
}.

End ABTest.

(* ================================================================= *)
(** ** core/services/ab_testing.py *)

Module ABTestingService.

(** The dictionary returned by [calculate_statistical_significance]; the
    keys absent from its last [return] are [None] here. *)
Record significance : Type := mk_significance {
  significant : bool;
  p_value : float;
  winner : option string;
  confidence : option num;
  metric_a : option num;
  metric_b : option num;
  improvement : option num
}.

(** An element of [results] in [analyze_test]. *)
Record comparison_entry : Type := mk_entry {
  variation_a : string;
  variation_b : string;
  result : significance
}.

(** The value under ['details']: one comparison, or the list of all. *)
Inductive details : Type :=
| DetailsOne (r : significance)
| DetailsAll (rs : list comparison_entry).

(** The dictionary returned by [analyze_test], a key that is absent
    being [None]. *)
Record analysis : Type := mk_analysis {
  a_error : option string;
  a_status : option string;
  a_message : option string;
  a_winner : option (option string);
  a_significant : option bool;
  a_details : option details
}.

(** An element of the list returned by [get_recommendation]. *)
Record recommendation : Type := mk_recommendation {
  r_type : string;
  r_message : string;
  r_priority : string
}.

(** The value returned when a variation has no data for the metric. *)
Definition no_data : significance :=
  mk_significance false (lit 1) None (Some (PyInt 0))
    (Some (PyInt 0)) (Some (PyInt 0)) (Some (PyInt 0)).

(** The value returned for a metric that is neither of the two. *)
Definition unknown_metric : significance :=
  mk_significance false (lit 1) None None None None None.

(** [list(qs.order_by('name'))]: a stable insertion sort on the names,
    compared as the database does under a binary collation. *)
Fixpoint insert_by_name (v : ABTestVariation.t) (l : list ABTestVariation.t)
  : list ABTestVariation.t :=
  match l with
  | [] => [v]
  | w :: t =>
      if String.leb (ABTestVariation.name v) (ABTestVariation.name w)
      then v :: w :: t
      else w :: insert_by_name v t
  end.

Definition order_by_name (l : list ABTestVariation.t) : list ABTestVariation.t :=
  fold_right insert_by_name [] l.

(** The index pairs [i < j] of the two nested [for] loops, in the order
    in which the loops visit them. *)
Fixpoint pairs {A : Type} (l : list A) : list (A * A) :=
  match l with
  | [] => []
  | a :: t => map (pair a) t ++ pairs t
  end.

Definition check_minimum_sample_size (ab_test : ABTest.t) : bool :=
  forallb
    (fun variation =>
       negb (ABTestVariation.impressions variation
             <? ABTest.min_sample_size ab_test))
    (ABTest.variations ab_test).

Definition set_decision (ab_test : ABTest.t) (w : option string) (p : float)
  : ABTest.t :=
  ABTest.mk (ABTest.status ab_test) (ABTest.success_metric ab_test)
    (ABTest.min_sample_size ab_test) w true (Some p)
    (ABTest.variations ab_test).

Section WithSciPy.

(** [scipy.stats.chi2_contingency] on the 2x2 table
    [[a, b], [c, d]]: the p-value it returns, or the exception it
    raises (a negative cell, an expected frequency of zero). *)
Variable chi2_contingency : Z -> Z -> Z -> Z -> Py.outcome float.

Definition calculate_statistical_significance
    (variation_a variation_b : ABTestVariation.t) (metric : string)
  : Py.outcome significance :=
  if String.eqb metric "ctr" then
    let clicks_a := ABTestVariation.clicks variation_a in
    let impressions_a := ABTestVariation.impressions variation_a in
    let clicks_b := ABTestVariation.clicks variation_b in
    let impressions_b := ABTestVariation.impressions variation_b in
    if (impressions_a =? 0) || (impressions_b =? 0) then Ok no_data
    else
      p <- chi2_contingency clicks_a (impressions_a - clicks_a)
                            clicks_b (impressions_b - clicks_b) ;;
      let is_significant := fltb p (dec 5 2) in
      ctr_a <- ABTestVariation.ctr variation_a ;;
      ctr_b <- ABTestVariation.ctr variation_b ;;
      let winner :=
        if is_significant
        then Some (if num_gt ctr_a ctr_b then "A"%string else "B"%string)
        else None in
      improvement <-
        (if num_gt (num_max ctr_a ctr_b) (PyInt 0) then
           d <- num_sub ctr_a ctr_b ;;
           q <- num_truediv (num_abs d) (num_max ctr_a ctr_b) ;;
           num_mul q (PyInt 100)
         else Ok (PyInt 0)) ;;
      Ok (mk_significance is_significant p winner
            (Some (PyFloat (fmul (fsub (lit 1) p) (lit 100))))
            (Some ctr_a) (Some ctr_b) (Some improvement))
  else if String.eqb metric "conversion_rate" then
    let conversions_a := ABTestVariation.conversions variation_a in
    let clicks_a := ABTestVariation.clicks variation_a in
    let conversions_b := ABTestVariation.conversions variation_b in
    let clicks_b := ABTestVariation.clicks variation_b in
    if (clicks_a =? 0) || (clicks_b =? 0) then Ok no_data
    else
      p <- chi2_contingency conversions_a (clicks_a - conversions_a)
                            conversions_b (clicks_b - conversions_b) ;;
      let is_significant := fltb p (dec 5 2) in
      conv_rate_a <- ABTestVariation.conversion_rate variation_a ;;
      conv_rate_b <- ABTestVariation.conversion_rate variation_b ;;
      let winner :=
        if is_significant
        then Some (if num_gt conv_rate_a conv_rate_b
                   then "A"%string else "B"%string)
        else None in
      improvement <-
        (if num_gt (num_max conv_rate_a conv_rate_b) (PyInt 0) then
           d <- num_sub conv_rate_a conv_rate_b ;;
           q <- num_truediv (num_abs d) (num_max conv_rate_a conv_rate_b) ;;
           num_mul q (PyInt 100)
         else Ok (PyInt 0)) ;;
      Ok (mk_significance is_significant p winner
            (Some (PyFloat (fmul (fsub (lit 1) p) (lit 100))))
            (Some conv_rate_a) (Some conv_rate_b) (Some improvement))
  else Ok unknown_metric.

(** The body of the two nested loops: one entry per pair. *)
Definition compare_pair (metric : string)
    (ab : ABTestVariation.t * ABTestVariation.t)
  : Py.outcome comparison_entry :=
  r <- calculate_statistical_significance (fst ab) (snd ab) metric ;;
  Ok (mk_entry (ABTestVariation.name (fst ab))
               (ABTestVariation.name (snd ab)) r).

(** [analyze_test]: the dictionary returned and the test as it is
    afterwards. *)
Definition analyze_test (ab_test : ABTest.t)
  : Py.outcome (analysis * ABTest.t) :=
  if negb (String.eqb (ABTest.status ab_test) "running") then
    Ok (mk_analysis (Some "Test is not running"%string)
          None None None None None, ab_test)
  else if negb (check_minimum_sample_size ab_test) then
    Ok (mk_analysis None (Some "insufficient_data"%string)
          (Some ("Need at least "
                 ++ str_int (ABTest.min_sample_size ab_test)
                 ++ " impressions per variation")%string)
          None None None, ab_test)
  else
    let variations := order_by_name (ABTest.variations ab_test) in
    if (Z.of_nat (List.length variations) <? 2) then
      Ok (mk_analysis (Some "Need at least 2 variations"%string)
            None None None None None, ab_test)
    else
      results <- mapM (compare_pair (ABTest.success_metric ab_test))
                      (pairs variations) ;;
      match results with
      | first :: _ =>
          if significant (result first) then
            let winner_name := winner (result first) in
            let ab_test :=
              set_decision ab_test winner_name (p_value (result first)) in
            Ok (mk_analysis None (Some "completed"%string) None
                  (Some winner_name) (Some true)
                  (Some (DetailsOne (result first))), ab_test)
          else
            Ok (mk_analysis None (Some "inconclusive"%string)
                  (Some "No statistically significant winner yet"%string)
                  None None (Some (DetailsAll results)), ab_test)
      | [] =>
          Ok (mk_analysis None (Some "inconclusive"%string)
                (Some "No statistically significant winner yet"%string)
                None None (Some (DetailsAll results)), ab_test)
      end.

(** [str(x)] inside an f-string for a value that is a [str] or [None]. *)
Definition str_optional (x : option string) : string :=
  match x with
  | Some s => s
  | None => "None"
  end.

Definition get_recommendation (ab_test : ABTest.t)
  : Py.outcome (list recommendation * ABTest.t) :=
  r <- analyze_test ab_test ;;
  let analysis := fst r in
  let ab_test := snd r in
  let recommendations := [] in
  if match a_status analysis with
     | Some s => String.eqb s "insufficient_data"
     | None => false
     end
  then
    Ok (recommendations ++
        [mk_recommendation "wait"
           "Continue running the test until minimum sample size is reached"
           "high"], ab_test)
  else if match a_status analysis, a_significant analysis with
          | Some s, Some b => String.eqb s "completed" && b
          | _, _ => false
          end
  then
    match a_winner analysis, a_details analysis with
    | Some winner, Some (DetailsOne d) =>
        let improvement :=
          match improvement d with
          | Some x => x
          | None => PyInt 0
          end in
        shown <- format_1f improvement ;;
        Ok (recommendations ++
            [mk_recommendation "action"
               ("Variation " ++ str_optional winner
                ++ " is the clear winner with " ++ shown
                ++ "% improvement. Implement this variation.")%string
               "high"], ab_test)
    | _, _ => Raise AttributeError
    end
  else if match a_status analysis with
          | Some s => String.eqb s "inconclusive"
          | None => false
          end
  then
    Ok (recommendations ++
        [mk_recommendation "extend"
           "No clear winner yet. Consider running the test longer or increasing traffic."
           "medium"], ab_test)
  else Ok (recommendations, ab_test).

End WithSciPy.

End ABTestingService.

(* ================================================================= *)
(** ** core/views.py: WeeklyReportView *)

Module WeeklyReportView.

(** One recommendation dictionary. *)
Record recommendation : Type := mk {
  category : string;
  priority : string;
  title : string;
  description : string;
  action : string;
  impact : string;
  metric : string;
  current : string;
  target : string
}.

(** What the function reads of a campaign:
    [title] and [analytics_summary.performance_score]. *)
Record campaign : Type := mk_campaign {
  campaign_title : string;
  performance_score : Z
}.

(** What the function reads of the [insights] dictionary. *)
Record insights_dict : Type := mk_insights {
  roas : num
}.

(** [priority_order.get(p, 3)] *)
Definition priority_order (p : string) : Z :=
  if String.eqb p "high" then 0
  else if String.eqb p "medium" then 1
  else if String.eqb p "low" then 2
  else 3.

Definition sort_key (x : recommendation) : Z := priority_order (priority x).

(** [list.sort(key=...)]: stable; on a list this short it is an
    insertion sort that leaves equal keys in their order. *)
Fixpoint insert_by_key (x : recommendation) (l : list recommendation)
  : list recommendation :=
  match l with
  | [] => [x]
  | y :: t =>
      if sort_key x <=? sort_key y then x :: y :: t
      else y :: insert_by_key x t
  end.

Definition sort_by_key (l : list recommendation) : list recommendation :=
  fold_right insert_by_key [] l.

Section WithRepr.

(** [str(x)] for a [float] (the shortest string that reads back as
    [x]), supplied by the Python runtime. *)
Variable repr_float : float -> string.

(** A number inside an f-string. *)
Definition str_num (a : num) : string :=
  match a with
  | PyInt z => str_int z
  | PyFloat f => repr_float f
  end.

Section Rules.

Variables (avg_ctr conversion_rate click_growth total_spend : num).
Variables (active_campaigns ads_generated : Z).
Variables (top_campaign worst_campaign : option campaign).
Variable (insights : insights_dict).
(* [worst_campaign] is a parameter of the source function that its
   body never reads. *)

(** [# CTR Analysis] *)
Definition ctr_analysis : list recommendation :=
  if num_lt avg_ctr (PyInt 2) then
    [mk "Performance" "high" "Improve Click-Through Rate"
        ("Your weekly CTR is " ++ str_num avg_ctr
         ++ "%, which is below the 3-5% industry benchmark. Test new headlines and visuals.")%string
        "A/B Test Creatives" "+50-100% potential CTR increase"
        "CTR" (str_num avg_ctr ++ "%")%string "3-5%"]
  else if num_ge avg_ctr (PyInt 5) then
    [mk "Performance" "high" "Excellent Performance - Scale Up"
        ("Your " ++ str_num avg_ctr
         ++ "% CTR is outstanding! Scale your best campaigns to maximize results.")%string
        "Increase Budget" "+100-200% potential reach"
        "CTR" (str_num avg_ctr ++ "%")%string "Maintain"]
  else [].

(** [# Conversion Rate Analysis] *)
Definition conversion_rate_analysis : list recommendation :=
  if num_lt conversion_rate (PyInt 5) && num_gt avg_ctr (PyInt 2) then
    [mk "Optimization" "high" "Optimize Conversion Funnel"
        ("You have good traffic (" ++ str_num avg_ctr
         ++ "% CTR) but low conversions (" ++ str_num conversion_rate
         ++ "%). Review landing pages.")%string
        "Optimize Landing Page" "+30-60% conversion increase"
        "Conversion Rate" (str_num conversion_rate ++ "%")%string
        "5-10%"]
  else [].

(** [# Growth Trend] *)
Definition growth_trend : list recommendation :=
  if num_lt click_growth (PyInt (-10)) then
    [mk "Engagement" "high" "Reverse Declining Engagement"
        ("Engagement dropped " ++ str_num click_growth
         ++ "% this week. Refresh ad creatives and review audience targeting.")%string
        "Refresh Campaign" "Reverse negative trend"
        "Weekly Growth" (str_num click_growth ++ "%")%string "+10%"]
  else if num_gt click_growth (PyInt 20) then
    [mk "Growth" "medium" "Capitalize on Momentum"
        ("Strong " ++ str_num click_growth
         ++ "% growth! Now is the time to increase investment and expand reach.")%string
        "Scale Investment" "Maximize growth period"
        "Weekly Growth" (str_num click_growth ++ "%")%string "Sustain"]
  else [].

(** [# Content Generation] *)
Definition content_generation : list recommendation :=
  if ads_generated <? 5 then
    [mk "Content" "medium" "Increase Ad Variations"
        ("Only " ++ str_int ads_generated
         ++ " ads created this week. More variations improve testing effectiveness.")%string
        "Generate 5+ Variations" "+25% optimization potential"
        "Content Volume" (str_int ads_generated ++ " ads")%string
        "10+ ads/week"]
  else [].

(** [# Budget Efficiency] *)
Definition budget_efficiency : list recommendation :=
  if num_gt total_spend (PyInt 0) && num_lt (roas insights) (PyInt 2) then
    [mk "Budget" "high" "Improve Return on Ad Spend"
        ("Current ROAS is " ++ str_num (roas insights)
         ++ "x. Review targeting and pause low-performing campaigns.")%string
        "Optimize Budget Allocation" "+50-100% ROAS improvement"
        "ROAS" (str_num (roas insights) ++ "x")%string "3-5x"]
  else [].

(** [# Campaign Activity] *)
Definition campaign_activity : list recommendation :=
  if active_campaigns =? 0 then
    [mk "Campaigns" "high" "Launch Active Campaigns"
        "No active campaigns running. Create and launch campaigns to start generating results."
        "Create Campaign" "Begin generating ROI"
        "Active Campaigns" "0" "3-5"]
  else [].

(** [# Top Campaign Optimization] *)
Definition top_campaign_optimization : list recommendation :=
  match top_campaign with
  | Some top =>
      if 70 <? performance_score top then
        [mk "Scaling" "medium"
            ("Scale Top Performer: " ++ campaign_title top)%string
            ("This campaign has " ++ str_int (performance_score top)
             ++ "/100 score. Allocate more budget.")%string
            "Increase Budget by 25%" "+30-50% additional reach"
            "Performance Score"
            (str_int (performance_score top) ++ "/100")%string
            "Maximize"]
      else []
  | None => []
  end.

(** The list [recommendations] when the last [append] is done, before
    it is sorted. *)
Definition emitted_recommendations : list recommendation :=
  let recommendations := [] in
  let recommendations := recommendations ++ ctr_analysis in
  let recommendations := recommendations ++ conversion_rate_analysis in
  let recommendations := recommendations ++ growth_trend in
  let recommendations := recommendations ++ content_generation in
  let recommendations := recommendations ++ budget_efficiency in
  let recommendations := recommendations ++ campaign_activity in
  let recommendations := recommendations ++ top_campaign_optimization in
  recommendations.

Definition _generate_weekly_recommendations : list recommendation :=
  let recommendations := sort_by_key emitted_recommendations in
  firstn 6 recommendations.

End Rules.

End WithRepr.

Section NextSteps.

(** [str(x)] for a [float], supplied by the Python runtime. *)
Variable repr_float : float -> string.

Variables (top_campaign worst_campaign : option campaign).
Variable (avg_ctr : num).
Variables (ads_generated active_campaigns : Z).

(** The list [steps] before the two standing steps are appended: one
    entry per condition that holds. *)
Definition conditional_steps : list string :=
  let steps := [] in
  let steps :=
    match top_campaign with
    | Some top =>
        steps ++ [("Review and scale best performer: "
                   ++ campaign_title top)%string]
    | None => steps
    end in
  let steps :=
    match worst_campaign with
    | Some worst =>
        if performance_score worst <? 50 then
          steps ++ [("Improve or pause low performer: "
                     ++ campaign_title worst ++ " ("
                     ++ str_int (performance_score worst) ++ "/100)")%string]
        else steps
    | None => steps
    end in
  let steps :=
    if num_lt avg_ctr (PyInt 3) then
      steps ++ [("Run A/B tests on headlines and visuals to improve "
                 ++ str_num repr_float avg_ctr ++ "% CTR")%string]
    else steps in
  let steps :=
    if ads_generated <? 10 then
      steps ++ [("Generate " ++ str_int (10 - ads_generated)
                 ++ " more ad variations for testing")%string]
    else steps in
  let steps :=
    if active_campaigns <? 3 then
      steps ++ ["Launch 2-3 new campaigns targeting different audiences"%string]
    else steps in
  steps.

Definition _generate_next_steps : list string :=
  let steps := conditional_steps in
  let steps :=
    steps ++ ["Check audience insights for optimal posting times"%string] in
  let steps :=
    steps ++ ["Review budget allocation across all campaigns"%string] in
  firstn 5 steps.

End NextSteps.

End WeeklyReportView.

(* ================================================================= *)
(** ** core/views.py: AudienceInsightsView *)

Module AudienceInsightsView.

(** One recommendation dictionary. *)
Record recommendation : Type := mk {
  r_type : string;
  message : string;
  priority : string;
  action : string
}.

(** Three decimal digits of a group after the first, zero-padded. *)
Definition group3 (n : Z) : string :=
  let zeros :=
    if n <? 10 then "00"%string
    else if n <? 100 then "0"%string
    else ""%string in
  (zeros ++ str_int n)%string.

(** The digits of [n >= 0] in groups of three separated by commas;
    [fuel] bounds the number of groups. *)
Fixpoint grouped (fuel : nat) (n : Z) : string :=
  match fuel with
  | O => str_int n
  | S fuel' =>
      if n <? 1000 then str_int n
      else
        let high := grouped fuel' (n / 1000) in
        let low := group3 (n mod 1000) in
        (high ++ "," ++ low)%string
  end.

(** [format(n, ',')] for an [int]. *)
Definition format_thousands (n : Z) : string :=
  let sign := if n <? 0 then "-"%string else ""%string in
  let digits := grouped (Z.to_nat (Z.log2 (Z.abs n))) (Z.abs n) in
  (sign ++ digits)%string.

(** [c.lower()] on an ASCII letter. *)
Definition lower_ascii (c : ascii) : ascii :=
  let n := nat_of_ascii c in
  if (65 <=? n)%nat && (n <=? 90)%nat then ascii_of_nat (n + 32) else c.

(** [s.lower()] on a string of ASCII characters. *)
Fixpoint lower (s : string) : string :=
  match s with
  | EmptyString => EmptyString
  | String c s' => String (lower_ascii c) (lower s')
  end.

Section WithRepr.

(** [str(x)] for a [float], supplied by the Python runtime. *)
Variable repr_float : float -> string.

Definition str_num (a : num) : string :=
  match a with
  | PyInt z => str_int z
  | PyFloat f => repr_float f
  end.

(** [_generate_real_recommendations]; [engaged_users] is a parameter of
    the source function that its body never reads. *)
Definition _generate_real_recommendations
    (engagement_rate : num) (total_reach : Z) (trend : string) (change : num)
  : list recommendation :=
  let recommendations := [] in
  let recommendations :=
    if num_lt engagement_rate (PyInt 2) then
      recommendations ++
      [mk "performance"
          ("Your " ++ str_num engagement_rate
           ++ "% engagement rate is below industry average (3-5%). Test different ad creatives and targeting.")%string
          "high" "A/B test new creatives"]
    else if num_gt engagement_rate (PyInt 5) then
      recommendations ++
      [mk "performance"
          ("Excellent " ++ str_num engagement_rate
           ++ "% engagement rate! Consider increasing budget to maximize reach.")%string
          "high" "Scale campaign budget"]
    else
      recommendations ++
      [mk "performance"
          ("Your " ++ str_num engagement_rate
           ++ "% engagement rate is on par with industry standards. Continue optimizing.")%string
          "medium" "Monitor and optimize"] in
  let recommendations :=
    if total_reach <? 10000 then
      recommendations ++
      [mk "reach"
          ("Current reach: " ++ format_thousands total_reach
           ++ " impressions. Increase budget or extend campaign duration for better visibility.")%string
          "high" "Increase budget by 20%"]
    else if 100000 <? total_reach then
      recommendations ++
      [mk "reach"
          ("Great reach of " ++ format_thousands total_reach
           ++ " impressions! Focus on conversion optimization.")%string
          "medium" "Optimize for conversions"]
    else recommendations in
  let recommendations :=
    if String.eqb trend "Decreasing" then
      recommendations ++
      [mk "timing"
          ("Engagement is " ++ lower trend ++ " (" ++ str_num change
           ++ "%). Review posting schedule and refresh ad creatives.")%string
          "high" "Refresh campaign strategy"]
    else
      recommendations ++
      [mk "timing"
          ("Positive trend: Engagement is " ++ lower trend ++ " ("
           ++ str_num change ++ "%). Maintain current strategy.")%string
          "low" "Continue monitoring"] in
  recommendations.

End WithRepr.

End AudienceInsightsView.

(* ================================================================= *)
(** ** Worked scenarios *)

Module Scenario.

(** Two days of one campaign: spend 100.00 and 150.00. *)
Definition day1 : DailyAnalytics.row := DailyAnalytics.mk_row 1000 40 4 10000.
Definition day2 : DailyAnalytics.row := DailyAnalytics.mk_row 2000 60 6 15000.

(** The record of day1 as the database returns it after a first
    [save]: ctr 4.0, cpc 2.50, cpa 25.00. *)
Definition stored_day1 : DailyAnalytics.t :=
  DailyAnalytics.mk 1000 40 4 (DecimalField.Decimal 10000)
    (PyFloat (lit 4)) (DecimalField.Decimal 250) (DecimalField.Decimal 2500).

Definition no_spend : DecimalField.t := DecimalField.Decimal 0.

(** Two arms with 8500 impressions each, 340 and 468 clicks. *)
Definition arm_A : ABTestVariation.t := ABTestVariation.mk "A" 8500 340 0 no_spend.
Definition arm_B : ABTestVariation.t := ABTestVariation.mk "B" 8500 468 0 no_spend.

Definition running_test : ABTest.t :=
  ABTest.mk "running" "ctr" 1000 (Some ""%string) false None [arm_A; arm_B].

(** The chi-square test on the table of [arm_A] and [arm_B]
    ([[340, 8160], [468, 8032]]): with the continuity correction the
    statistic is about 20.96 and the p-value about 4.7e-6. *)
Definition chi2_arms (a b c d : Z) : outcome float :=
  if (a =? 340) && (b =? 8160) && (c =? 468) && (d =? 8032)
  then Ok (dec 47 7)
  else Raise ValueError.

(** What the comparison of [arm_A] with [arm_B] on ['ctr'] returns
    under [chi2_arms]: rates 4.0 and 5.51, winner B. *)
Definition arms_result : ABTestingService.significance :=
  ABTestingService.mk_significance true (dec 47 7) (Some "B"%string)
    (Some (PyFloat (fmul (fsub (lit 1) (dec 47 7)) (lit 100))))
    (Some (PyFloat (lit 4)))
    (Some (PyFloat (dec 551 2)))
    (Some (PyFloat
             (fmul (fdiv (fabs (fsub (lit 4) (dec 551 2))) (dec 551 2))
                   (lit 100)))).

(** Two arms with 10^8 impressions each whose click rates, 0.0104% and
    0.0096%, both round to 0.01. *)
Definition close_A : ABTestVariation.t :=
  ABTestVariation.mk "A" 100000000 10400 0 no_spend.
Definition close_B : ABTestVariation.t :=
  ABTestVariation.mk "B" 100000000 9600 0 no_spend.

(** The chi-square test on their table
    ([[10400, 99989600], [9600, 99990400]]): the statistic is about
    31.9 and the p-value about 1.6e-8. *)
Definition chi2_close (a b c d : Z) : outcome float :=
  if (a =? 10400) && (b =? 99989600) && (c =? 9600) && (d =? 99990400)
  then Ok (dec 16 9)
  else Raise ValueError.

(** A chi-square routine that fails whenever it is called. *)
Definition chi2_unavailable (a b c d : Z) : outcome float := Raise ValueError.

(** An arm that has not been shown yet. *)
Definition idle_arm : ABTestVariation.t := ABTestVariation.mk "B" 0 0 0 no_spend.

(** A running test whose arm A has 500 impressions for a floor of 1000. *)
Definition short_test : ABTest.t :=
  ABTest.mk "running" "ctr" 1000 (Some ""%string) false None
    [ABTestVariation.mk "A" 500 20 0 no_spend; arm_B].

(** A test that has not been started. *)
Definition draft_test : ABTest.t :=
  ABTest.mk "draft" "ctr" 1000 (Some ""%string) false None [arm_A; arm_B].

(** An arm whose counters are inconsistent: more clicks than
    impressions, hence a negative cell in any table it enters. *)
Definition overdrawn_arm : ABTestVariation.t :=
  ABTestVariation.mk "C" 8500 9000 0 no_spend.

(** The running test with this third arm. *)
Definition three_arm_test : ABTest.t :=
  ABTest.mk "running" "ctr" 1000 (Some ""%string) false None
    [arm_A; arm_B; overdrawn_arm].

(** A running test with a single arm. *)
Definition single_arm_test : ABTest.t :=
  ABTest.mk "running" "ctr" 1000 (Some ""%string) false None [arm_A].

(** The running test measured on a metric that the service does not
    know. *)
Definition cpc_test : ABTest.t :=
  ABTest.mk "running" "cpc" 1000 (Some ""%string) false None [arm_A; arm_B].

(** [running_test] once its analysis has stored the decision. *)
Definition decided_test : ABTest.t :=
  ABTest.mk "running" "ctr" 1000 (Some "B"%string) true (Some (dec 47 7))
    [arm_A; arm_B].

(** The summary of day1 and day2. *)
Definition two_day_summary : CampaignAnalyticsSummary.t :=
  CampaignAnalyticsSummary.mk 3000 100 10 (DecimalField.Decimal 25000)
    (PyFloat (dec 333 2)) (DecimalField.Number (PyFloat (dec 25 1)))
    (PyFloat (lit 10)) (PyFloat (lit 2)) 70.

(** The object that [save] makes of [stored_day1]. *)
Definition saved_day1 : DailyAnalytics.t :=
  DailyAnalytics.mk 1000 40 4 (DecimalField.Decimal 10000)
    (PyFloat (lit 4)) (DecimalField.Number (PyFloat (dec 25 1)))
    (DecimalField.Number (PyFloat (lit 25))).

(** A stand-in for Python's conversion of a [float] to text. *)
Definition plain_repr (x : float) : string := format_1f_float x.

(** A week with a click-through rate of 1 and nothing else to report. *)
Definition low_ctr_week : list WeeklyReportView.recommendation :=
  WeeklyReportView._generate_weekly_recommendations plain_repr
    (PyInt 1) (PyInt 0) (PyInt 0) (PyInt 0) 1 10 None
    (WeeklyReportView.mk_insights (PyInt 0)).

Definition low_ctr_week_emitted : list WeeklyReportView.recommendation :=
  WeeklyReportView.emitted_recommendations plain_repr
    (PyInt 1) (PyInt 0) (PyInt 0) (PyInt 0) 1 10 None
    (WeeklyReportView.mk_insights (PyInt 0)).

Definition blank_recommendation : WeeklyReportView.recommendation :=
  WeeklyReportView.mk "" "" "" "" "" "" "" "" "".

(** A best and a worst campaign. *)
Definition best_campaign : WeeklyReportView.campaign :=
  WeeklyReportView.mk_campaign "Spring" 80.
Definition worst_campaign : WeeklyReportView.campaign :=
  WeeklyReportView.mk_campaign "Autumn" 40.

End Scenario.

(* ================================================================= *)
(** ** Vocabulary of the statements *)

Module Reading.

Import ABTestingService.

(** The property of a variation that a metric names; here [metric] is one
    of the two that the service knows. *)
Definition rate_of (metric : string) (v : ABTestVariation.t) : outcome num :=
  if String.eqb metric "ctr" then ABTestVariation.ctr v
  else ABTestVariation.conversion_rate v.

(** The variation with no observation for the metric: no impressions
    under ['ctr'], no clicks under ['conversion_rate']. *)
Definition lacks_data (metric : string) (v : ABTestVariation.t) : Prop :=
  (metric = "ctr"%string /\ ABTestVariation.impressions v = 0) \/
  (metric = "conversion_rate"%string /\ ABTestVariation.clicks v = 0).

(** The winner named by [r] is the variation whose rate exceeds the
    other's. *)
Definition names_higher_rate (r : significance) (m_a m_b : num) : Prop :=
  (winner r = Some "A"%string /\ num_gt m_a m_b = true) \/
  (winner r = Some "B"%string /\ num_gt m_b m_a = true).

(** The winner rule as the specification words it, at one comparison:
    no winner without significance, and a significant result names the
    variation whose rate exceeds the other's. *)
Definition winner_is_higher_rule
    (chi2 : Z -> Z -> Z -> Z -> outcome float)
    (va vb : ABTestVariation.t) (metric : string) : Prop :=
  forall r : significance,
    calculate_statistical_significance chi2 va vb metric = Ok r ->
    (significant r = false -> winner r = None) /\
    (significant r = true ->
     exists m_a m_b,
       rate_of metric va = Ok m_a /\ rate_of metric vb = Ok m_b /\
       names_higher_rate r m_a m_b).

(** The list [results] that [analyze_test] builds for a test that passes
    its guards: one comparison per pair of variations, the variations
    taken in the order of their names. *)
Definition pairwise_results (chi2 : Z -> Z -> Z -> Z -> outcome float)
    (ab_test : ABTest.t) : outcome (list comparison_entry) :=
  mapM (compare_pair chi2 (ABTest.success_metric ab_test))
       (pairs (order_by_name (ABTest.variations ab_test))).

(** Every variation has reached the floor of the test. *)
Definition meets_sample_floor (t : ABTest.t) : Prop :=
  Forall (fun v => ABTest.min_sample_size t <= ABTestVariation.impressions v)
         (ABTest.variations t).

(** The decision rule as the specification words it, at one test that
    is running, meets the floor and has two variations or more: when the
    first comparison is significant its winner and p-value are stored on
    the test, which is marked significant and becomes completed. *)
Definition first_pair_completes_rule
    (chi2 : Z -> Z -> Z -> Z -> outcome float) (t : ABTest.t) : Prop :=
  ABTest.status t = "running"%string ->
  meets_sample_floor t ->
  (2 <= List.length (ABTest.variations t))%nat ->
  forall (first : comparison_entry) (rest : list comparison_entry),
    pairwise_results chi2 t = Ok (first :: rest) ->
    significant (result first) = true ->
    exists (a : analysis) (t' : ABTest.t),
      analyze_test chi2 t = Ok (a, t') /\
      ABTest.winner t' = winner (result first) /\
      ABTest.p_value t' = Some (p_value (result first)) /\
      ABTest.is_significant t' = true /\
      ABTest.status t' = "completed"%string.

(** The entries of a list of recommendations that carry one priority,
    in the order of the list. *)
Definition with_priority (p : string) (l : list WeeklyReportView.recommendation)
  : list WeeklyReportView.recommendation :=
  filter (fun r => String.eqb (WeeklyReportView.priority r) p) l.

(** The order that the sort key induces on recommendations. *)
Definition by_priority (a b : WeeklyReportView.recommendation) : Prop :=
  WeeklyReportView.sort_key a <= WeeklyReportView.sort_key b.

(** The five dictionaries that [analyze_test] can return. *)
Definition answer_not_running : analysis :=
  mk_analysis (Some "Test is not running"%string) None None None None None.

Definition answer_insufficient (min_sample_size : Z) : analysis :=
  mk_analysis None (Some "insufficient_data"%string)
    (Some ("Need at least " ++ str_int min_sample_size
           ++ " impressions per variation")%string)
    None None None.

Definition answer_too_few : analysis :=
  mk_analysis (Some "Need at least 2 variations"%string)
    None None None None None.

Definition answer_inconclusive (results : list comparison_entry) : analysis :=
  mk_analysis None (Some "inconclusive"%string)
    (Some "No statistically significant winner yet"%string)
    None None (Some (DetailsAll results)).

Definition answer_completed (r : significance) : analysis :=
  mk_analysis None (Some "completed"%string) None
    (Some (winner r)) (Some true) (Some (DetailsOne r)).

(** The metric is one of the two that the service knows. *)
Definition known_metric (metric : string) : Prop :=
  metric = "ctr"%string \/ metric = "conversion_rate"%string.

(** The side effect of [get_recommendation] as the specification words
    it, at one test that is running and meets the floor: when the
    comparison of the first two variations, taken in the order of their
    names, is significant, the call returns and leaves that comparison's
    winner, flag and p-value on the test. *)
Definition first_pair_persists_rule
    (chi2 : Z -> Z -> Z -> Z -> outcome float) (t : ABTest.t) : Prop :=
  ABTest.status t = "running"%string ->
  meets_sample_floor t ->
  forall (v0 v1 : ABTestVariation.t) (others : list ABTestVariation.t)
         (r : significance),
    order_by_name (ABTest.variations t) = v0 :: v1 :: others ->
    calculate_statistical_significance chi2 v0 v1 (ABTest.success_metric t)
    = Ok r ->
    significant r = true ->
    exists (recommendations : list recommendation) (t' : ABTest.t),
      get_recommendation chi2 t = Ok (recommendations, t') /\
      ABTest.winner t' = winner r /\
      ABTest.is_significant t' = true /\
      ABTest.p_value t' = Some (p_value r).

(** The points that each of the three chains of tests in
    [_calculate_performance_score] adds to the score, before the final
    [min(score, 100)]: click-through rate, conversion rate, return on
    ad spend. *)
Definition ctr_points (self : CampaignAnalyticsSummary.t) : Z :=
  if num_ge (CampaignAnalyticsSummary.avg_ctr self) (PyInt 5) then 30
  else if num_ge (CampaignAnalyticsSummary.avg_ctr self) (PyInt 3) then 20
  else if num_ge (CampaignAnalyticsSummary.avg_ctr self) (PyInt 1) then 10
  else 0.

Definition conversion_points (self : CampaignAnalyticsSummary.t) : Z :=
  if num_ge (CampaignAnalyticsSummary.avg_conversion_rate self) (PyInt 10)
  then 30
  else if num_ge (CampaignAnalyticsSummary.avg_conversion_rate self) (PyInt 5)
  then 20
  else if num_ge (CampaignAnalyticsSummary.avg_conversion_rate self) (PyInt 2)
  then 10
  else 0.

Definition roas_points (self : CampaignAnalyticsSummary.t) : Z :=
  if num_ge (CampaignAnalyticsSummary.roas self) (PyInt 5) then 40
  else if num_ge (CampaignAnalyticsSummary.roas self) (PyInt 3) then 30
  else if num_ge (CampaignAnalyticsSummary.roas self) (PyInt 2) then 20
  else if num_ge (CampaignAnalyticsSummary.roas self) (PyInt 1) then 10
  else 0.

End Reading.

Import Reading.

(* ================================================================= *)
(** * Properties *)

(** ** The error monad *)

Lemma bind_Ok_inv {A B : Type} (c : outcome A) (k : A -> outcome B) (b : B) :
  bind c k = Ok b -> exists a, c = Ok a /\ k a = Ok b.
Proof.
  destruct c as [a | e]; simpl; intros H.
  - exists a. split; [reflexivity | exact H].
  - discriminate H.
Qed.

Lemma mapM_length {A B : Type} (f : A -> outcome B) (l : list A) (ys : list B) :
  mapM f l = Ok ys -> List.length ys = List.length l.
Proof.
  revert ys. induction l as [| x t IH]; simpl; intros ys H.
  - injection H as <-. reflexivity.
  - apply bind_Ok_inv in H. destruct H as (y & _ & H).
    apply bind_Ok_inv in H. destruct H as (ys' & Ht & H).
    injection H as <-. simpl. f_equal. apply IH. exact Ht.
Qed.

(** ** The arithmetic on sample values *)

(** [100 / 3000 * 100] is 3.3333333333333335 and rounds to 3.33. *)
Example round2_of_a_third :
  (q <- int_truediv 100 3000 ;; Ok (round2 (fmul q (lit 100))))
  = Ok (dec 333 2).
Proof. vm_compute. reflexivity. Qed.

(** [10 / 100 * 100] is exactly 10.0. *)
Example tenth_times_hundred :
  (q <- int_truediv 10 100 ;; Ok (fmul q (lit 100))) = Ok (lit 10).
Proof. vm_compute. reflexivity. Qed.

(** A tie goes to the even neighbour: [round(0.125, 2)] is 0.12 and
    [round(0.375, 2)] is 0.38. *)
Example round2_ties_to_even :
  round2 (dec 125 3) = dec 12 2 /\ round2 (dec 375 3) = dec 38 2.
Proof. split; vm_compute; reflexivity. Qed.

(** [format(27.35, '.1f')] is '27.4', 27.35 being a little above its
    decimal name in binary64. *)
Example format_1f_sample : format_1f (PyFloat (dec 2735 2)) = Ok "27.4"%string.
Proof. vm_compute. reflexivity. Qed.

(** An [int] is compared with a [float] on exact values. *)
Example int_float_comparison :
  num_ge (PyFloat (dec 333 2)) (PyInt 3) = true /\
  num_ge (PyFloat (dec 333 2)) (PyInt 5) = false /\
  num_lt (PyInt 0) (PyFloat (dec 1 2)) = true.
Proof. repeat split; vm_compute; reflexivity. Qed.

(** ** The campaign summary *)

Section Summary.

Import CampaignAnalyticsSummary.

Import Scenario.

(** C8.  On the two records day1 (1000 impressions, 40 clicks, 4
    conversions, spend 100) and day2 (2000, 60, 6, 150) the roll-up gives
    the totals 3000, 100, 10 and 250.00, avg_ctr 3.33 (from the summed
    totals; the mean of the daily rates 4.0 and 3.0 would be 3.5),
    avg_cpc 2.5, avg_conversion_rate 10.0, roas 2.0 with 50 of revenue
    per conversion, and performance_score 70, whatever the summary held
    before. *)
Theorem update_metrics_two_day_scenario :
  forall self : t,
    update_metrics self [day1; day2]
    = Ok (mk 3000 100 10 (DecimalField.Decimal 25000)
             (PyFloat (dec 333 2))
             (DecimalField.Number (PyFloat (dec 25 1)))
             (PyFloat (lit 10))
             (PyFloat (lit 2))
             70).
Proof.
  intros [i c v s a p r o n].
  vm_compute. reflexivity.
Qed.

(** Without records the four totals are zero, the rates and the ROAS are
    those the summary already held, and the score is the rubric applied
    to them. *)
Lemma update_metrics_no_records (self : t) :
  update_metrics self []
  = Ok (mk 0 0 0 (DecimalField.Number (PyInt 0))
           (avg_ctr self) (avg_cpc self) (avg_conversion_rate self)
           (roas self) (_calculate_performance_score self)).
Proof.
  destruct self as [i c v s a p r o n]. reflexivity.
Qed.

(** C1.  The roll-up of an empty record set does not reset the score: a
    summary computed from day1 and day2 and recomputed once both records
    are gone has totals of zero, but keeps avg_ctr 3.33,
    avg_conversion_rate 10.0, roas 2.0 and therefore the score 70. *)
Theorem update_metrics_empty_keeps_stale_score :
  (s <- update_metrics fresh [day1; day2] ;; update_metrics s [])
  = Ok (mk 0 0 0 (DecimalField.Number (PyInt 0))
           (PyFloat (dec 333 2))
           (DecimalField.Number (PyFloat (dec 25 1)))
           (PyFloat (lit 10))
           (PyFloat (lit 2))
           70).
Proof. vm_compute. reflexivity. Qed.

(** C4.  Recomputing a summary that was just computed from the same
    records returns it unchanged, field for field. *)
Theorem update_metrics_idempotent :
  forall (self : t) (daily_data : list DailyAnalytics.row) (once : t),
    update_metrics self daily_data = Ok once ->
    update_metrics once daily_data = Ok once.
Proof.
  intros self daily_data once.
  unfold update_metrics.
  destruct self as [i c v s a p r o n]. unfold set_totals. simpl.
  generalize (sum_int (map DailyAnalytics.row_impressions daily_data)).
  generalize (sum_int (map DailyAnalytics.row_clicks daily_data)).
  generalize (sum_int (map DailyAnalytics.row_conversions daily_data)).
  generalize (sum_spend daily_data).
  intros S V C I.
  destruct once as [i1 c1 v1 s1 a1 p1 r1 o1 n1]. simpl.
  destruct (0 <? I); simpl;
    [destruct (int_truediv C I) as [q |]; simpl; [| discriminate] |];
    (destruct (0 <? C); simpl;
     [destruct (DecimalField.to_float S) as [x |]; simpl; [| discriminate];
      destruct (float_of_int C) as [d |]; simpl; [| discriminate];
      destruct (float_truediv x d) as [y |]; simpl; [| discriminate];
      destruct (int_truediv V C) as [z |]; simpl; [| discriminate] |]);
    (destruct (DecimalField.gt0 S); simpl;
     [ destruct (DecimalField.to_float S) as [x' |]; simpl; [| try discriminate];
       destruct (float_of_int (V * 50)) as [d' |]; simpl; [| try discriminate];
       destruct (float_truediv d' x') as [y' |]; simpl; [| try discriminate] |]);
    intros H; injection H as <- <- <- <- <- <- <- <- <-; reflexivity.
Qed.

(** The idempotence theorem at the two-day scenario. *)
Lemma update_metrics_idempotent_witness :
  update_metrics (mk 3000 100 10 (DecimalField.Decimal 25000)
                    (PyFloat (dec 333 2))
                    (DecimalField.Number (PyFloat (dec 25 1)))
                    (PyFloat (lit 10)) (PyFloat (lit 2)) 70)
                 [day1; day2]
  = Ok (mk 3000 100 10 (DecimalField.Decimal 25000)
           (PyFloat (dec 333 2))
           (DecimalField.Number (PyFloat (dec 25 1)))
           (PyFloat (lit 10)) (PyFloat (lit 2)) 70).
Proof.
  apply (update_metrics_idempotent fresh [day1; day2]).
  vm_compute. reflexivity.
Defined.

End Summary.

(** ** The daily record *)

Section Daily.

Import DailyAnalytics Scenario.

(** On an object that carries the field defaults, [save] leaves a derived
    field at zero when its denominator is not positive. *)
Lemma save_fresh_zero_counters (s : DecimalField.t) :
  save (mk 0 0 0 s (PyInt 0) (DecimalField.Number (PyInt 0))
           (DecimalField.Number (PyInt 0)))
  = Ok (mk 0 0 0 s (PyInt 0) (DecimalField.Number (PyInt 0))
           (DecimalField.Number (PyInt 0))).
Proof. reflexivity. Qed.

(** [save] assigns a derived field only under its guard: a field whose
    denominator is not positive keeps the value the object had. *)
Lemma save_keeps_unguarded_fields (self saved : t) :
  save self = Ok saved ->
  (impressions self <= 0 -> ctr saved = ctr self) /\
  (clicks self <= 0 -> cpc saved = cpc self) /\
  (conversions self <= 0 -> cpa saved = cpa self).
Proof.
  destruct self as [i c v s a p q]. unfold save, spend_per. simpl.
  destruct (0 <? i) eqn:Hi; simpl;
    [destruct (int_truediv c i); simpl; [| discriminate] |];
    (destruct (0 <? c) eqn:Hc; simpl;
     [destruct (DecimalField.to_float s); simpl; [| discriminate];
      destruct (float_of_int c); simpl; [| discriminate];
      destruct (float_truediv _ _); simpl; [| discriminate] |]);
    (destruct (0 <? v) eqn:Hv; simpl;
     [destruct (DecimalField.to_float s); simpl; [| try discriminate];
      destruct (float_of_int v); simpl; [| try discriminate];
      destruct (float_truediv _ _); simpl; [| try discriminate] |]);
    intros H; injection H as <-; simpl;
    repeat split; intros Hle; try reflexivity;
    apply Z.ltb_lt in Hi || apply Z.ltb_lt in Hc || apply Z.ltb_lt in Hv; lia.
Qed.

(** C2.  Overwriting the counters of the stored day1 record (ctr 4.0,
    cpc 2.50, cpa 25.00) with a day without traffic and saving it leaves
    the three derived fields at their former values instead of zero. *)
Theorem save_zero_counters_keeps_stale_rates :
  overwrite_counters stored_day1 0 0 0
    (DecimalField.Number (PyFloat (S754_zero false)))
  = Ok (mk 0 0 0 (DecimalField.Number (PyFloat (S754_zero false)))
           (PyFloat (lit 4)) (DecimalField.Decimal 250)
           (DecimalField.Decimal 2500)).
Proof. vm_compute. reflexivity. Qed.

End Daily.

(** ** Comparisons of numbers *)

Lemma SFcompare_antisym (x y : float) :
  SFcompare y x = option_map CompOpp (SFcompare x y).
Proof.
  destruct x as [sx | sx | | sx mx ex], y as [sy | sy | | sy my ey];
    try reflexivity;
    try (destruct sx; reflexivity);
    try (destruct sy; reflexivity);
    try (destruct sx, sy; reflexivity).
  simpl. destruct sx, sy; try reflexivity; simpl;
    rewrite (Z.compare_antisym ey ex);
    destruct (ey ?= ex); simpl; try reflexivity;
    rewrite (Pos.compare_cont_antisym mx my Eq); simpl;
    try rewrite CompOpp_involutive; reflexivity.
Qed.

Lemma num_compare_antisym (a b : num) :
  num_compare b a = option_map CompOpp (num_compare a b).
Proof.
  destruct a as [x | x], b as [y | y]; simpl.
  - rewrite (Z.compare_antisym x y). reflexivity.
  - destruct (float_cmp_int y x) as [c |]; simpl;
      [rewrite CompOpp_involutive |]; reflexivity.
  - reflexivity.
  - apply SFcompare_antisym.
Qed.

(** [a > b] excludes [b > a]. *)
Lemma num_gt_asym (a b : num) : num_gt a b = true -> num_gt b a = false.
Proof.
  unfold num_gt, num_lt. rewrite (num_compare_antisym b a).
  destruct (num_compare b a) as [[| |] |]; simpl; congruence.
Qed.

(** ** The significance engine *)

Section Significance.

Import ABTestingService Scenario.

Variable chi2 : Z -> Z -> Z -> Z -> outcome float.

(** What is known of a result that came out of the chi-square branch. *)
Lemma tested_result_inv (trials_a trials_b successes_a successes_b : Z)
    (rate_a rate_b : outcome num) (r : significance) :
  (p <- chi2 successes_a (trials_a - successes_a)
             successes_b (trials_b - successes_b) ;;
   let is_significant := fltb p (dec 5 2) in
   m_a <- rate_a ;;
   m_b <- rate_b ;;
   let winner :=
     if is_significant
     then Some (if num_gt m_a m_b then "A"%string else "B"%string)
     else None in
   improvement <-
     (if num_gt (num_max m_a m_b) (PyInt 0) then
        d <- num_sub m_a m_b ;;
        q <- num_truediv (num_abs d) (num_max m_a m_b) ;;
        num_mul q (PyInt 100)
      else Ok (PyInt 0)) ;;
   Ok (mk_significance is_significant p winner
         (Some (PyFloat (fmul (fsub (lit 1) p) (lit 100))))
         (Some m_a) (Some m_b) (Some improvement))) = Ok r ->
  exists p m_a m_b,
    chi2 successes_a (trials_a - successes_a)
         successes_b (trials_b - successes_b) = Ok p /\
    rate_a = Ok m_a /\ rate_b = Ok m_b /\
    significant r = fltb p (dec 5 2) /\
    p_value r = p /\
    metric_a r = Some m_a /\ metric_b r = Some m_b /\
    winner r = (if fltb p (dec 5 2)
                then Some (if num_gt m_a m_b then "A"%string else "B"%string)
                else None) /\
    (improvement r = Some (PyInt 0) \/ exists f, improvement r = Some (PyFloat f)).
Proof.
  intros H.
  apply bind_Ok_inv in H. destruct H as (p & Hp & H). cbv zeta in H.
  apply bind_Ok_inv in H. destruct H as (m_a & Ha & H).
  apply bind_Ok_inv in H. destruct H as (m_b & Hb & H).
  apply bind_Ok_inv in H. destruct H as (imp & Himp & H).
  injection H as <-. simpl.
  exists p, m_a, m_b. repeat (split; [assumption || reflexivity |]).
  destruct (num_gt (num_max m_a m_b) (PyInt 0)).
  - right.
    apply bind_Ok_inv in Himp. destruct Himp as (d & _ & Himp).
    apply bind_Ok_inv in Himp. destruct Himp as (q & Hq & Himp).
    assert (exists f, q = PyFloat f) as [f ->].
    { unfold num_truediv in Hq.
      destruct (num_abs d), (num_max m_a m_b);
        repeat (apply bind_Ok_inv in Hq; destruct Hq as (? & _ & Hq));
        injection Hq as <-; eauto. }
    unfold num_mul in Himp.
    apply bind_Ok_inv in Himp. destruct Himp as (x & _ & Himp).
    apply bind_Ok_inv in Himp. destruct Himp as (y & _ & Himp).
    injection Himp as <-. eauto.
  - left. injection Himp as <-. reflexivity.
Qed.

(** A result of [calculate_statistical_significance] is the no-data
    value, the unknown-metric value, or came out of the chi-square branch
    for the rates that the metric names. *)
Lemma significance_cases (va vb : ABTestVariation.t) (metric : string)
    (r : significance) :
  calculate_statistical_significance chi2 va vb metric = Ok r ->
  r = no_data \/ r = unknown_metric \/
  exists p m_a m_b,
    rate_of metric va = Ok m_a /\ rate_of metric vb = Ok m_b /\
    significant r = fltb p (dec 5 2) /\
    p_value r = p /\
    metric_a r = Some m_a /\ metric_b r = Some m_b /\
    winner r = (if fltb p (dec 5 2)
                then Some (if num_gt m_a m_b then "A"%string else "B"%string)
                else None) /\
    (improvement r = Some (PyInt 0) \/ exists f, improvement r = Some (PyFloat f)).
Proof.
  unfold calculate_statistical_significance, rate_of. cbv zeta.
  destruct (String.eqb metric "ctr").
  - destruct ((ABTestVariation.impressions va =? 0)
              || (ABTestVariation.impressions vb =? 0)).
    + intros H. injection H as <-. auto.
    + intros H. right. right.
      apply tested_result_inv in H.
      destruct H as (p & m_a & m_b & _ & H). exists p, m_a, m_b. exact H.
  - destruct (String.eqb metric "conversion_rate").
    + destruct ((ABTestVariation.clicks va =? 0)
                || (ABTestVariation.clicks vb =? 0)).
      * intros H. injection H as <-. auto.
      * intros H. right. right.
        apply tested_result_inv in H.
        destruct H as (p & m_a & m_b & _ & H). exists p, m_a, m_b. exact H.
    + intros H. injection H as <-. auto.
Qed.

(** C5.  When either variation has no impressions (metric ['ctr']) or no
    clicks (metric ['conversion_rate']), the comparison returns
    significant = False, p_value = 1.0, winner = None and confidence = 0
    whatever the chi-square routine would do: it is not consulted. *)
Theorem significance_short_circuits_without_data :
  forall (va vb : ABTestVariation.t) (metric : string),
    lacks_data metric va \/ lacks_data metric vb ->
    calculate_statistical_significance chi2 va vb metric
    = Ok (mk_significance false (lit 1) None (Some (PyInt 0))
            (Some (PyInt 0)) (Some (PyInt 0)) (Some (PyInt 0))).
Proof.
  intros va vb metric H.
  unfold calculate_statistical_significance. cbv zeta.
  destruct H as [[[-> H] | [-> H]] | [[-> H] | [-> H]]]; simpl;
    rewrite H; simpl; rewrite ?orb_true_r; reflexivity.
Qed.

(** The part of the winner rule that the code keeps.  A result that is
    not significant names no winner; a significant one carries the two
    rates of the variations, as the properties round them, and names the
    variation whose rounded rate is the greater whenever one of them
    is. *)
Theorem winner_follows_significance :
  forall (va vb : ABTestVariation.t) (metric : string) (r : significance),
    calculate_statistical_significance chi2 va vb metric = Ok r ->
    (significant r = false -> winner r = None) /\
    (significant r = true ->
     exists m_a m_b,
       rate_of metric va = Ok m_a /\ rate_of metric vb = Ok m_b /\
       metric_a r = Some m_a /\ metric_b r = Some m_b /\
       (num_gt m_a m_b = true -> winner r = Some "A"%string) /\
       (num_gt m_b m_a = true -> winner r = Some "B"%string)).
Proof.
  intros va vb metric r H.
  apply significance_cases in H.
  destruct H as [-> | [-> | (p & m_a & m_b & Ha & Hb & Hs & _ & Hma & Hmb & Hw & _)]].
  - split; [reflexivity | discriminate].
  - split; [reflexivity | discriminate].
  - rewrite Hs, Hw. split.
    + intros ->. reflexivity.
    + intros ->. exists m_a, m_b. repeat (split; [assumption |]).
      split.
      * intros ->. reflexivity.
      * intros Hgt. apply num_gt_asym in Hgt. rewrite Hgt. reflexivity.
Qed.

End Significance.

(** The short-circuit theorem at an arm without impressions, with a
    chi-square routine that would fail if it were called. *)
Lemma significance_short_circuits_without_data_witness :
  ABTestingService.calculate_statistical_significance
    Scenario.chi2_unavailable Scenario.arm_A Scenario.idle_arm "ctr"
  = Ok (ABTestingService.mk_significance false (lit 1) None (Some (PyInt 0))
          (Some (PyInt 0)) (Some (PyInt 0)) (Some (PyInt 0))).
Proof.
  apply (significance_short_circuits_without_data Scenario.chi2_unavailable).
  right. left. split; reflexivity.
Defined.

(** The winner theorem at the two arms of the scenario. *)
Lemma winner_follows_significance_witness :
  (ABTestingService.significant Scenario.arms_result = false ->
   ABTestingService.winner Scenario.arms_result = None) /\
  (ABTestingService.significant Scenario.arms_result = true ->
   exists m_a m_b,
     rate_of "ctr" Scenario.arm_A = Ok m_a /\
     rate_of "ctr" Scenario.arm_B = Ok m_b /\
     ABTestingService.metric_a Scenario.arms_result = Some m_a /\
     ABTestingService.metric_b Scenario.arms_result = Some m_b /\
     (num_gt m_a m_b = true ->
      ABTestingService.winner Scenario.arms_result = Some "A"%string) /\
     (num_gt m_b m_a = true ->
      ABTestingService.winner Scenario.arms_result = Some "B"%string)).
Proof.
  apply (winner_follows_significance Scenario.chi2_arms
           Scenario.arm_A Scenario.arm_B "ctr" Scenario.arms_result).
  vm_compute. reflexivity.
Defined.

(** C6.  The code at [close_A] and [close_B], 10^8 impressions per arm
    and 10400 against 9600 clicks.  The raw rate of A is the higher one
    (10400/10^8 against 9600/10^8); the [ctr] property rounds both to
    0.01; the table of raw counts is significant; and
    ['A' if ctr_a > ctr_b else 'B'] names B, the arm with the lower raw
    rate.  The rates and the improvement reported are 0.01, 0.01 and
    0.0. *)
Lemma significance_names_lower_raw_rate :
  ABTestVariation.clicks Scenario.close_B
  * ABTestVariation.impressions Scenario.close_A
  < ABTestVariation.clicks Scenario.close_A
    * ABTestVariation.impressions Scenario.close_B /\
  ABTestVariation.ctr Scenario.close_A = Ok (PyFloat (dec 1 2)) /\
  ABTestVariation.ctr Scenario.close_B = Ok (PyFloat (dec 1 2)) /\
  exists r : ABTestingService.significance,
    ABTestingService.calculate_statistical_significance
      Scenario.chi2_close Scenario.close_A Scenario.close_B "ctr" = Ok r /\
    ABTestingService.significant r = true /\
    ABTestingService.winner r = Some "B"%string /\
    ABTestingService.metric_a r = Some (PyFloat (dec 1 2)) /\
    ABTestingService.metric_b r = Some (PyFloat (dec 1 2)) /\
    ABTestingService.improvement r = Some (PyFloat (lit 0)).
Proof.
  split; [reflexivity |].
  split; [vm_compute; reflexivity |].
  split; [vm_compute; reflexivity |].
  eexists. split; [vm_compute; reflexivity |].
  repeat split; reflexivity.
Qed.

(** The winner rule, as the specification words it, is false of the
    code at that comparison: the winner named is B, whose rate does not
    exceed that of A. *)
Lemma winner_named_on_equal_rates :
  ~ winner_is_higher_rule Scenario.chi2_close
      Scenario.close_A Scenario.close_B "ctr".
Proof.
  unfold winner_is_higher_rule. intros H.
  remember (ABTestingService.calculate_statistical_significance
              Scenario.chi2_close Scenario.close_A Scenario.close_B "ctr")
    as o eqn:E.
  vm_compute in E. subst o.
  destruct (H _ eq_refl) as [_ H2].
  destruct (H2 eq_refl) as (m_a & m_b & Ha & Hb & Hn).
  vm_compute in Ha. injection Ha as <-.
  vm_compute in Hb. injection Hb as <-.
  destruct Hn as [[Hw _] | [_ Hgt]].
  - discriminate Hw.
  - vm_compute in Hgt. discriminate Hgt.
Qed.

(** ** The orchestrator *)

Section Orchestrator.

Import ABTestingService.

Variable chi2 : Z -> Z -> Z -> Z -> outcome float.

Lemma insert_by_name_length (v : ABTestVariation.t) (l : list ABTestVariation.t) :
  List.length (insert_by_name v l) = S (List.length l).
Proof.
  induction l as [| w t IH]; simpl; [reflexivity |].
  destruct (String.leb _ _); simpl; [| rewrite IH]; reflexivity.
Qed.

Lemma order_by_name_length (l : list ABTestVariation.t) :
  List.length (order_by_name l) = List.length l.
Proof.
  unfold order_by_name.
  induction l as [| v t IH]; simpl; [reflexivity |].
  rewrite insert_by_name_length, IH. reflexivity.
Qed.

(** The two loops visit n(n-1)/2 pairs. *)
Lemma pairs_length {A : Type} (l : list A) :
  (2 * List.length (pairs l) = List.length l * (List.length l - 1))%nat.
Proof.
  induction l as [| a t IH]; simpl; [reflexivity |].
  rewrite length_app, length_map. nia.
Qed.

(** When the comparisons return there is one entry per pair. *)
Lemma pairwise_results_length (t : ABTest.t) (results : list comparison_entry) :
  pairwise_results chi2 t = Ok results ->
  (2 * List.length results
   = List.length (ABTest.variations t) * (List.length (ABTest.variations t) - 1))%nat.
Proof.
  unfold pairwise_results. intros H. apply mapM_length in H.
  rewrite H, pairs_length, order_by_name_length. reflexivity.
Qed.

(** The names of the ordered list ascend. *)
Lemma order_by_name_sorted (l : list ABTestVariation.t) :
  Sorted (fun v w => String.leb (ABTestVariation.name v)
                                (ABTestVariation.name w) = true)
         (order_by_name l).
Proof.
  unfold order_by_name.
  induction l as [| v t IH]; simpl; [constructor |].
  revert IH.
  generalize (fold_right insert_by_name [] t) as s. clear t.
  induction s as [| w s IHs]; simpl; intros Hs.
  - repeat constructor.
  - destruct (String.leb (ABTestVariation.name v) (ABTestVariation.name w))
      eqn:E.
    + constructor; [exact Hs | constructor; exact E].
    + apply Sorted_inv in Hs. destruct Hs as [Hs Hhd].
      constructor; [apply IHs; exact Hs |].
      assert (Hwv : String.leb (ABTestVariation.name w)
                               (ABTestVariation.name v) = true).
      { destruct (String.leb_total (ABTestVariation.name v)
                                   (ABTestVariation.name w)); congruence. }
      destruct s as [| u s']; simpl.
      * constructor. exact Hwv.
      * destruct (String.leb (ABTestVariation.name v) (ABTestVariation.name u)).
        -- constructor. exact Hwv.
        -- constructor. apply HdRel_inv in Hhd. exact Hhd.
Qed.

Lemma check_minimum_sample_size_spec (t : ABTest.t) :
  check_minimum_sample_size t = true <-> meets_sample_floor t.
Proof.
  unfold check_minimum_sample_size, meets_sample_floor.
  rewrite forallb_forall, Forall_forall.
  split; intros H v Hv; specialize (H v Hv).
  - apply negb_true_iff, Z.ltb_ge in H. exact H.
  - apply negb_true_iff, Z.ltb_ge. exact H.
Qed.

Lemma check_minimum_sample_size_short (t : ABTest.t) (v : ABTestVariation.t) :
  In v (ABTest.variations t) ->
  ABTestVariation.impressions v < ABTest.min_sample_size t ->
  check_minimum_sample_size t = false.
Proof.
  intros Hin Hlt.
  destruct (check_minimum_sample_size t) eqn:E; [| reflexivity].
  apply check_minimum_sample_size_spec in E.
  unfold meets_sample_floor in E. rewrite Forall_forall in E.
  specialize (E v Hin). lia.
Qed.

(** C7.  A test that is not running is answered with the error 'Test is
    not running', and a running test one of whose variations is below
    [min_sample_size] with the status 'insufficient_data' and a message
    that names the floor; in both cases the test comes back as it was
    (winner, is_significant, p_value and status included). *)
Theorem analyze_test_refuses_without_mutation :
  forall t : ABTest.t,
    (ABTest.status t <> "running"%string ->
     analyze_test chi2 t
     = Ok (mk_analysis (Some "Test is not running"%string)
             None None None None None, t)) /\
    (ABTest.status t = "running"%string ->
     (exists v, In v (ABTest.variations t) /\
                ABTestVariation.impressions v < ABTest.min_sample_size t) ->
     analyze_test chi2 t
     = Ok (mk_analysis None (Some "insufficient_data"%string)
             (Some ("Need at least "
                    ++ str_int (ABTest.min_sample_size t)
                    ++ " impressions per variation")%string)
             None None None, t)).
Proof.
  intros t. unfold analyze_test. split.
  - intros Hs. apply String.eqb_neq in Hs. rewrite Hs. reflexivity.
  - intros Hs (v & Hin & Hlt). rewrite Hs. simpl.
    rewrite (check_minimum_sample_size_short t v Hin Hlt). reflexivity.
Qed.

(** What [analyze_test] does once its three guards are passed and the
    comparisons have returned. *)
Lemma analyze_test_decision (t : ABTest.t) (results : list comparison_entry) :
  ABTest.status t = "running"%string ->
  meets_sample_floor t ->
  (2 <= List.length (ABTest.variations t))%nat ->
  pairwise_results chi2 t = Ok results ->
  analyze_test chi2 t
  = Ok match results with
       | first :: _ =>
           if significant (result first) then
             (mk_analysis None (Some "completed"%string) None
                (Some (winner (result first))) (Some true)
                (Some (DetailsOne (result first))),
              set_decision t (winner (result first)) (p_value (result first)))
           else
             (mk_analysis None (Some "inconclusive"%string)
                (Some "No statistically significant winner yet"%string)
                None None (Some (DetailsAll results)), t)
       | [] =>
           (mk_analysis None (Some "inconclusive"%string)
              (Some "No statistically significant winner yet"%string)
              None None (Some (DetailsAll results)), t)
       end.
Proof.
  intros Hs Hfloor Hlen Hres. unfold analyze_test.
  rewrite Hs. simpl.
  apply check_minimum_sample_size_spec in Hfloor. rewrite Hfloor. simpl.
  rewrite order_by_name_length.
  assert (Hn : (Z.of_nat (List.length (ABTest.variations t)) <? 2) = false)
    by (apply Z.ltb_ge; lia).
  unfold pairwise_results in Hres. rewrite Hn, Hres. simpl.
  destruct results as [| first rest]; [reflexivity |].
  destruct (significant (result first)); reflexivity.
Qed.

(** The first entry of [results] compares the first two variations in
    the order of their names. *)
Lemma first_entry_compares_first_two (t : ABTest.t)
    (first : comparison_entry) (rest : list comparison_entry) :
  pairwise_results chi2 t = Ok (first :: rest) ->
  exists v0 v1 others,
    order_by_name (ABTest.variations t) = v0 :: v1 :: others /\
    calculate_statistical_significance chi2 v0 v1 (ABTest.success_metric t)
    = Ok (result first) /\
    variation_a first = ABTestVariation.name v0 /\
    variation_b first = ABTestVariation.name v1.
Proof.
  unfold pairwise_results.
  destruct (order_by_name (ABTest.variations t)) as [| v0 [| v1 others]];
    simpl; try discriminate.
  intros H.
  apply bind_Ok_inv in H. destruct H as (e & He & H).
  apply bind_Ok_inv in H. destruct H as (es & _ & H).
  injection H as <- <-.
  unfold compare_pair in He. simpl in He.
  apply bind_Ok_inv in He. destruct He as (r & Hr & He).
  injection He as <-. simpl.
  exists v0, v1, others. auto.
Qed.

(** C3 (as amended).  For a running test that meets the floor and has at
    least two variations, once the pairwise comparisons have returned:
    if the first one (the first two variations by name) is significant,
    its winner and its p-value are stored on the test, which is marked
    significant, the answer carries the status 'completed', and the
    status of the test itself stays 'running'; if none is significant,
    the answer is 'inconclusive' with every comparison and the test is
    as it was. *)
Theorem analyze_test_first_pair_decides :
  forall (t : ABTest.t) (results : list comparison_entry),
    ABTest.status t = "running"%string ->
    meets_sample_floor t ->
    (2 <= List.length (ABTest.variations t))%nat ->
    pairwise_results chi2 t = Ok results ->
    (exists v0 v1 others first rest,
       order_by_name (ABTest.variations t) = v0 :: v1 :: others /\
       results = first :: rest /\
       calculate_statistical_significance chi2 v0 v1 (ABTest.success_metric t)
       = Ok (result first)) /\
    (forall first rest,
       results = first :: rest ->
       significant (result first) = true ->
       exists t' : ABTest.t,
         analyze_test chi2 t
         = Ok (mk_analysis None (Some "completed"%string) None
                 (Some (winner (result first))) (Some true)
                 (Some (DetailsOne (result first))), t') /\
         ABTest.winner t' = winner (result first) /\
         ABTest.p_value t' = Some (p_value (result first)) /\
         ABTest.is_significant t' = true /\
         ABTest.status t' = "running"%string) /\
    (Forall (fun e => significant (result e) = false) results ->
     analyze_test chi2 t
     = Ok (mk_analysis None (Some "inconclusive"%string)
             (Some "No statistically significant winner yet"%string)
             None None (Some (DetailsAll results)), t)).
Proof.
  intros t results Hs Hfloor Hlen Hres.
  pose proof (analyze_test_decision t results Hs Hfloor Hlen Hres) as Han.
  split; [| split].
  - destruct results as [| first rest].
    + apply mapM_length in Hres. simpl in Hres.
      pose proof (order_by_name_length (ABTest.variations t)) as Hl.
      destruct (order_by_name (ABTest.variations t)) as [| v0 [| v1 others]];
        simpl in *; lia.
    + destruct (first_entry_compares_first_two t first rest Hres)
        as (v0 & v1 & others & Ho & Hc & _).
      exists v0, v1, others, first, rest. auto.
  - intros first rest -> Hsig. rewrite Hsig in Han.
    exists (set_decision t (winner (result first)) (p_value (result first))).
    split; [exact Han |]. simpl. auto.
  - intros Hall. rewrite Han.
    destruct results as [| first rest]; [reflexivity |].
    apply Forall_inv in Hall. rewrite Hall. reflexivity.
Qed.

(** C10 (as amended).  [get_recommendation] on a running test that meets
    the floor, once the comparisons have all returned and the first of
    them is significant, returns its advice and leaves the test as
    [analyze_test] leaves it: with the winner, the p-value and the
    significance flag of that comparison stored, hence changed if it was
    not marked significant before. *)
Theorem get_recommendation_persists_decision :
  forall (t : ABTest.t) (first : comparison_entry)
         (rest : list comparison_entry),
    ABTest.status t = "running"%string ->
    meets_sample_floor t ->
    pairwise_results chi2 t = Ok (first :: rest) ->
    significant (result first) = true ->
    exists (recommendations : list recommendation) (t' : ABTest.t),
      get_recommendation chi2 t = Ok (recommendations, t') /\
      (exists a, analyze_test chi2 t = Ok (a, t')) /\
      ABTest.winner t' = winner (result first) /\
      ABTest.is_significant t' = true /\
      ABTest.p_value t' = Some (p_value (result first)) /\
      (ABTest.is_significant t = false -> t' <> t).
Proof.
  intros t first rest Hs Hfloor Hres Hsig.
  destruct (first_entry_compares_first_two t first rest Hres)
    as (v0 & v1 & others & Ho & Hc & _).
  assert (Hlen : (2 <= List.length (ABTest.variations t))%nat).
  { rewrite <- order_by_name_length, Ho. simpl. lia. }
  pose proof (analyze_test_decision t _ Hs Hfloor Hlen Hres) as Han.
  cbv iota in Han. rewrite Hsig in Han.
  assert (Hfmt : exists shown,
             format_1f match improvement (result first) with
                       | Some x => x
                       | None => PyInt 0
                       end = Ok shown).
  { apply significance_cases in Hc.
    destruct Hc as [E | [E | (p & m_a & m_b & _ & _ & _ & _ & _ & _ & _ & Hi)]].
    - rewrite E in Hsig. discriminate Hsig.
    - rewrite E in Hsig. discriminate Hsig.
    - destruct Hi as [-> | [f ->]]; eexists; reflexivity. }
  destruct Hfmt as (shown & Hfmt).
  unfold get_recommendation. rewrite Han. simpl. rewrite Hfmt. simpl.
  eexists. eexists. split; [reflexivity |].
  split; [eexists; reflexivity |].
  repeat (split; [reflexivity |]).
  intros Hold Heq. rewrite <- Heq in Hold. discriminate Hold.
Qed.

End Orchestrator.

Section OrchestratorScenarios.

Import ABTestingService Scenario.

Lemma running_test_meets_floor : meets_sample_floor running_test.
Proof. repeat constructor; simpl; lia. Qed.

Lemma running_test_results :
  pairwise_results chi2_arms running_test = Ok [mk_entry "A" "B" arms_result].
Proof. vm_compute. reflexivity. Qed.

(** The refusal theorem at a draft test and at a test whose arm A has
    500 impressions for a floor of 1000. *)
Lemma analyze_test_refuses_without_mutation_witness :
  analyze_test chi2_unavailable draft_test
  = Ok (mk_analysis (Some "Test is not running"%string)
          None None None None None, draft_test) /\
  analyze_test chi2_unavailable short_test
  = Ok (mk_analysis None (Some "insufficient_data"%string)
          (Some "Need at least 1000 impressions per variation"%string)
          None None None, short_test).
Proof.
  split.
  - apply (proj1 (analyze_test_refuses_without_mutation
                    chi2_unavailable draft_test)).
    discriminate.
  - apply (proj2 (analyze_test_refuses_without_mutation
                    chi2_unavailable short_test)).
    + reflexivity.
    + exists (ABTestVariation.mk "A" 500 20 0 no_spend).
      split; [left; reflexivity | reflexivity].
Defined.

(** The decision theorem at the two arms of the scenario. *)
Lemma analyze_test_first_pair_decides_witness :
  exists t' : ABTest.t,
    analyze_test chi2_arms running_test
    = Ok (mk_analysis None (Some "completed"%string) None
            (Some (Some "B"%string)) (Some true)
            (Some (DetailsOne arms_result)), t') /\
    ABTest.winner t' = Some "B"%string /\
    ABTest.p_value t' = Some (dec 47 7) /\
    ABTest.is_significant t' = true /\
    ABTest.status t' = "running"%string.
Proof.
  destruct (analyze_test_first_pair_decides chi2_arms running_test
              [mk_entry "A" "B" arms_result]) as (_ & H & _).
  - reflexivity.
  - repeat constructor; simpl; lia.
  - simpl. lia.
  - vm_compute. reflexivity.
  - exact (H (mk_entry "A" "B" arms_result) [] eq_refl eq_refl).
Defined.

(** C3, as first stated, fails: after the analysis of the scenario test,
    whose only comparison is significant, the winner is stored but the
    status of the test is still 'running'. *)
Lemma analyze_test_leaves_status_running :
  ~ first_pair_completes_rule chi2_arms running_test.
Proof.
  unfold first_pair_completes_rule. intros H.
  destruct (H eq_refl running_test_meets_floor (le_n 2) _ _
              running_test_results eq_refl)
    as (a & t' & Han & _ & _ & _ & Hst).
  vm_compute in Han. injection Han as _ <-.
  discriminate Hst.
Qed.

(** The side-effect theorem at the two arms of the scenario: the test
    that comes back differs from the one that went in. *)
Lemma get_recommendation_persists_decision_witness :
  exists (recommendations : list recommendation) (t' : ABTest.t),
    get_recommendation chi2_arms running_test = Ok (recommendations, t') /\
    (exists a, analyze_test chi2_arms running_test = Ok (a, t')) /\
    ABTest.winner t' = Some "B"%string /\
    ABTest.is_significant t' = true /\
    ABTest.p_value t' = Some (dec 47 7) /\
    (ABTest.is_significant running_test = false -> t' <> running_test).
Proof.
  apply (get_recommendation_persists_decision chi2_arms running_test
           (mk_entry "A" "B" arms_result) []).
  - reflexivity.
  - repeat constructor; simpl; lia.
  - vm_compute. reflexivity.
  - reflexivity.
Defined.

(** C10, as first stated, fails: at the test with three arms the
    comparison of the first two, A with B, is significant, yet the
    comparison of A with C raises before anything is decided, so
    [get_recommendation] raises and nothing is stored on the test. *)
Lemma get_recommendation_raises_after_significant_first_pair :
  get_recommendation chi2_arms three_arm_test = Raise ValueError /\
  ~ first_pair_persists_rule chi2_arms three_arm_test.
Proof.
  assert (Hraise : get_recommendation chi2_arms three_arm_test
                   = Raise ValueError) by (vm_compute; reflexivity).
  split; [exact Hraise |].
  unfold first_pair_persists_rule. intros H.
  assert (Hfloor : meets_sample_floor three_arm_test)
    by (repeat constructor; simpl; lia).
  assert (Hcmp : calculate_statistical_significance chi2_arms arm_A arm_B
                   (ABTest.success_metric three_arm_test) = Ok arms_result)
    by (vm_compute; reflexivity).
  destruct (H eq_refl Hfloor arm_A arm_B [overdrawn_arm] arms_result
              eq_refl Hcmp eq_refl)
    as (recommendations & t' & Hget & _).
  rewrite Hraise in Hget. discriminate Hget.
Qed.

End OrchestratorScenarios.

(** ** The weekly recommendations *)

Section Weekly.

Import WeeklyReportView.

Lemma insert_by_key_Forall (P : recommendation -> Prop) (x : recommendation)
    (l : list recommendation) :
  P x -> Forall P l -> Forall P (insert_by_key x l).
Proof.
  intros Hx Hl. induction Hl as [| y t Hy Ht IH]; simpl.
  - constructor; [exact Hx | constructor].
  - destruct (sort_key x <=? sort_key y).
    + constructor; [exact Hx | constructor; assumption].
    + constructor; assumption.
Qed.

Lemma sort_by_key_Forall (P : recommendation -> Prop) (l : list recommendation) :
  Forall P l -> Forall P (sort_by_key l).
Proof.
  unfold sort_by_key. induction 1 as [| x t Hx Ht IH]; simpl.
  - constructor.
  - apply insert_by_key_Forall; assumption.
Qed.

Lemma insert_by_key_sorted (x : recommendation) (l : list recommendation) :
  StronglySorted by_priority l ->
  StronglySorted by_priority (insert_by_key x l).
Proof.
  induction 1 as [| y t Hs IH Hy]; simpl.
  - repeat constructor.
  - destruct (sort_key x <=? sort_key y) eqn:E.
    + apply Z.leb_le in E.
      constructor; [constructor; assumption |].
      constructor; [exact E |].
      eapply Forall_impl; [| exact Hy].
      unfold by_priority. intros z Hz. lia.
    + apply Z.leb_gt in E.
      constructor; [exact IH |].
      apply insert_by_key_Forall; [unfold by_priority; lia | exact Hy].
Qed.

Lemma sort_by_key_sorted (l : list recommendation) :
  StronglySorted by_priority (sort_by_key l).
Proof.
  unfold sort_by_key. induction l as [| x t IH]; simpl.
  - constructor.
  - apply insert_by_key_sorted. exact IH.
Qed.

(** The sort is stable: the entries that share a key keep their order.
    Stated for any selection [f] that picks entries of one key only. *)
Lemma filter_insert_by_key (f : recommendation -> bool) (x : recommendation)
    (l : list recommendation) :
  (forall a b, f a = true -> f b = true -> sort_key a = sort_key b) ->
  filter f (insert_by_key x l)
  = if f x then x :: filter f l else filter f l.
Proof.
  intros Hf. induction l as [| y t IH]; simpl.
  - reflexivity.
  - destruct (sort_key x <=? sort_key y) eqn:E; simpl.
    + reflexivity.
    + rewrite IH. apply Z.leb_gt in E.
      destruct (f x) eqn:Fx, (f y) eqn:Fy; try reflexivity.
      specialize (Hf x y Fx Fy). lia.
Qed.

Lemma filter_sort_by_key (f : recommendation -> bool) (l : list recommendation) :
  (forall a b, f a = true -> f b = true -> sort_key a = sort_key b) ->
  filter f (sort_by_key l) = filter f l.
Proof.
  intros Hf. unfold sort_by_key. induction l as [| x t IH]; simpl.
  - reflexivity.
  - rewrite (filter_insert_by_key f x _ Hf), IH. reflexivity.
Qed.

Lemma with_priority_one_key (p : string) (a b : recommendation) :
  String.eqb (priority a) p = true -> String.eqb (priority b) p = true ->
  sort_key a = sort_key b.
Proof.
  intros Ha Hb. apply String.eqb_eq in Ha, Hb.
  unfold sort_key. congruence.
Qed.

Lemma with_priority_sort_by_key (p : string) (l : list recommendation) :
  with_priority p (sort_by_key l) = with_priority p l.
Proof.
  apply filter_sort_by_key. intros a b. apply with_priority_one_key.
Qed.

(** No entry of a list whose keys all exceed that of [p] carries [p]. *)
Lemma with_priority_above (p : string) (l : list recommendation) :
  Forall (fun y => priority_order p < sort_key y) l ->
  with_priority p l = [].
Proof.
  induction 1 as [| y t Hy Ht IH]; simpl; [reflexivity |].
  destruct (String.eqb (priority y) p) eqn:E.
  - apply String.eqb_eq in E. unfold sort_key in Hy. rewrite E in Hy. lia.
  - exact IH.
Qed.

(** A list sorted on the key that holds the three known priorities only
    is its 'high' entries, then its 'medium' entries, then its 'low'
    ones. *)
Lemma sorted_layout (l : list recommendation) :
  StronglySorted by_priority l ->
  Forall (fun r => sort_key r <= 2) l ->
  l = with_priority "high" l ++ with_priority "medium" l
      ++ with_priority "low" l.
Proof.
  induction 1 as [| x t Hs IH Hx]; intros Hk; [reflexivity |].
  apply Forall_cons_iff in Hk. destruct Hk as [Hkx Hkt].
  specialize (IH Hkt).
  unfold with_priority in *. simpl.
  unfold sort_key, priority_order in Hkx.
  unfold by_priority in Hx.
  assert (Hx' : Forall (fun y => sort_key x <= sort_key y) t) by exact Hx.
  clear Hx. unfold sort_key at 1, priority_order at 1 in Hx'.
  destruct (String.eqb (priority x) "high") eqn:E0.
  - apply String.eqb_eq in E0. rewrite E0. simpl.
    f_equal. exact IH.
  - destruct (String.eqb (priority x) "medium") eqn:E1.
    + apply String.eqb_eq in E1. rewrite E1. simpl.
      assert (H0 : with_priority "high" t = []).
      { apply with_priority_above.
        eapply Forall_impl; [| exact Hx']. simpl. intros y Hy.
        change (priority_order "high") with 0. lia. }
      unfold with_priority in H0. rewrite H0 in *. simpl.
      f_equal. exact IH.
    + destruct (String.eqb (priority x) "low") eqn:E2; [| lia].
      simpl.
      assert (H0 : with_priority "high" t = []).
      { apply with_priority_above.
        eapply Forall_impl; [| exact Hx']. simpl. intros y Hy.
        change (priority_order "high") with 0. lia. }
      assert (H1 : with_priority "medium" t = []).
      { apply with_priority_above.
        eapply Forall_impl; [| exact Hx']. simpl. intros y Hy.
        change (priority_order "medium") with 1. lia. }
      unfold with_priority in H0, H1. rewrite H0, H1 in *. simpl.
      f_equal. exact IH.
Qed.

Lemma firstn_Forall (P : recommendation -> Prop) (n : nat)
    (l : list recommendation) :
  Forall P l -> Forall P (firstn n l).
Proof.
  intros H. revert n. induction H as [| x t Hx Ht IH]; intros [| n]; simpl;
    constructor; auto.
Qed.

Lemma firstn_sorted (n : nat) (l : list recommendation) :
  StronglySorted by_priority l -> StronglySorted by_priority (firstn n l).
Proof.
  revert n. induction l as [| x t IH]; intros n Hs.
  - destruct n; constructor.
  - destruct n as [| n]; simpl; [constructor |].
    apply StronglySorted_inv in Hs. destruct Hs as [Hs Hx].
    constructor; [apply IH; exact Hs |].
    apply firstn_Forall. exact Hx.
Qed.

Lemma one_high (c t d a i m u g : string) :
  Forall (fun r => sort_key r <= 2) [mk c "high" t d a i m u g].
Proof. repeat constructor. unfold sort_key. simpl priority. discriminate. Qed.

Lemma one_medium (c t d a i m u g : string) :
  Forall (fun r => sort_key r <= 2) [mk c "medium" t d a i m u g].
Proof. repeat constructor. unfold sort_key. simpl priority. discriminate. Qed.

(** Closes the goal left by one branch of one rule. *)
Ltac one_rule :=
  first [apply one_high | apply one_medium | apply Forall_nil].

Section Rules.

Variable repr_float : float -> string.
Variables (avg_ctr conversion_rate click_growth total_spend : num).
Variables (active_campaigns ads_generated : Z).
Variable (top_campaign : option campaign).
Variable (insights : insights_dict).

Let emitted : list recommendation :=
  emitted_recommendations repr_float avg_ctr conversion_rate click_growth
    total_spend active_campaigns ads_generated top_campaign insights.

(** Every rule of the table emits 'high' or 'medium'. *)
Lemma emitted_keys : Forall (fun r => sort_key r <= 2) emitted.
Proof.
  unfold emitted, emitted_recommendations. cbv zeta.
  rewrite app_nil_l, !Forall_app.
  repeat split.
  - unfold ctr_analysis.
    destruct (num_lt avg_ctr (PyInt 2)); [| destruct (num_ge avg_ctr (PyInt 5))];
      one_rule.
  - unfold conversion_rate_analysis.
    destruct (_ && _); one_rule.
  - unfold growth_trend.
    destruct (num_lt click_growth _); [| destruct (num_gt click_growth _)];
      one_rule.
  - unfold content_generation.
    destruct (ads_generated <? 5); one_rule.
  - unfold budget_efficiency.
    destruct (_ && _); one_rule.
  - unfold campaign_activity.
    destruct (active_campaigns =? 0); one_rule.
  - unfold top_campaign_optimization.
    destruct top_campaign as [top |]; [destruct (70 <? _) |]; one_rule.
Qed.

(** C9.  The list returned has at most six entries, is sorted on the
    priority key, and is the beginning of: the 'high' recommendations
    in the order in which the rules emitted them, then the 'medium'
    ones, then the 'low' ones, each in that order. *)
Theorem weekly_recommendations_sorted_and_capped :
  let returned :=
    _generate_weekly_recommendations repr_float avg_ctr conversion_rate
      click_growth total_spend active_campaigns ads_generated
      top_campaign insights in
  (List.length returned <= 6)%nat /\
  StronglySorted by_priority returned /\
  returned = firstn 6 (with_priority "high" emitted
                       ++ with_priority "medium" emitted
                       ++ with_priority "low" emitted).
Proof.
  unfold _generate_weekly_recommendations. cbv zeta. fold emitted.
  split; [| split].
  - apply firstn_le_length.
  - apply firstn_sorted, sort_by_key_sorted.
  - f_equal.
    rewrite (sorted_layout (sort_by_key emitted)
               (sort_by_key_sorted emitted)
               (sort_by_key_Forall _ _ emitted_keys)) at 1.
    rewrite !with_priority_sort_by_key. reflexivity.
Qed.

End Rules.

End Weekly.

(* ================================================================= *)
(** * Further properties of the A/B service *)

Section ServiceBehaviour.

Import ABTestingService.

Variable chi2 : Z -> Z -> Z -> Z -> outcome float.

(** Every way in which [analyze_test] returns. *)
Lemma analyze_test_inv (t t' : ABTest.t) (a : analysis) :
  analyze_test chi2 t = Ok (a, t') ->
  (ABTest.status t <> "running"%string /\ a = answer_not_running /\ t' = t) \/
  (ABTest.status t = "running"%string /\
   check_minimum_sample_size t = false /\
   a = answer_insufficient (ABTest.min_sample_size t) /\ t' = t) \/
  (ABTest.status t = "running"%string /\ meets_sample_floor t /\
   (List.length (ABTest.variations t) < 2)%nat /\
   a = answer_too_few /\ t' = t) \/
  (exists results,
     ABTest.status t = "running"%string /\ meets_sample_floor t /\
     (2 <= List.length (ABTest.variations t))%nat /\
     pairwise_results chi2 t = Ok results /\
     match results with
     | first :: _ => significant (result first) = false
     | [] => True
     end /\
     a = answer_inconclusive results /\ t' = t) \/
  (exists first rest,
     ABTest.status t = "running"%string /\ meets_sample_floor t /\
     (2 <= List.length (ABTest.variations t))%nat /\
     pairwise_results chi2 t = Ok (first :: rest) /\
     significant (result first) = true /\
     a = answer_completed (result first) /\
     t' = set_decision t (winner (result first)) (p_value (result first))).
Proof.
  unfold analyze_test, pairwise_results.
  destruct (String.eqb (ABTest.status t) "running") eqn:Es; simpl.
  2: { intros H. injection H as <- <-. left.
       apply String.eqb_neq in Es. auto. }
  apply String.eqb_eq in Es.
  destruct (check_minimum_sample_size t) eqn:Ef; simpl.
  2: { intros H. injection H as <- <-. right. left. auto. }
  apply check_minimum_sample_size_spec in Ef.
  rewrite order_by_name_length.
  destruct (Z.of_nat (List.length (ABTest.variations t)) <? 2) eqn:El.
  { intros H. injection H as <- <-. right. right. left.
    apply Z.ltb_lt in El. repeat split; auto. lia. }
  apply Z.ltb_ge in El.
  destruct (mapM _ _) as [results | e] eqn:Em; simpl; [| discriminate].
  destruct results as [| first rest].
  { intros H. injection H as <- <-. right. right. right. left.
    exists []. repeat split; auto. lia. }
  destruct (significant (result first)) eqn:Esig.
  - intros H. injection H as <- <-. right. right. right. right.
    exists first, rest. repeat split; auto. lia.
  - intros H. injection H as <- <-. right. right. right. left.
    exists (first :: rest). repeat split; auto. lia.
Qed.

(** X1.  A running test that meets the floor but has fewer than two
    variations (none at all included: the floor then holds vacuously) is
    answered with the error 'Need at least 2 variations' and comes back
    unchanged. *)
Theorem analyze_test_needs_two_variations :
  forall t : ABTest.t,
    ABTest.status t = "running"%string ->
    meets_sample_floor t ->
    (List.length (ABTest.variations t) < 2)%nat ->
    analyze_test chi2 t = Ok (answer_too_few, t).
Proof.
  intros t Hs Hf Hl. unfold analyze_test.
  rewrite Hs. simpl.
  apply check_minimum_sample_size_spec in Hf. rewrite Hf. simpl.
  rewrite order_by_name_length.
  assert (Hn : (Z.of_nat (List.length (ABTest.variations t)) <? 2) = true)
    by (apply Z.ltb_lt; lia).
  rewrite Hn. reflexivity.
Qed.

(** X2.  Whatever [analyze_test] answers, the status, the metric, the
    floor and the variations of the test are those it had: the analysis
    writes the winner, the significance flag and the p-value only. *)
Theorem analyze_test_preserves_configuration :
  forall (t t' : ABTest.t) (a : analysis),
    analyze_test chi2 t = Ok (a, t') ->
    ABTest.status t' = ABTest.status t /\
    ABTest.success_metric t' = ABTest.success_metric t /\
    ABTest.min_sample_size t' = ABTest.min_sample_size t /\
    ABTest.variations t' = ABTest.variations t.
Proof.
  intros t t' a H. apply analyze_test_inv in H.
  destruct H as [(_ & _ & ->) | [(_ & _ & _ & ->) | [(_ & _ & _ & _ & ->)
    | [(results & _ & _ & _ & _ & _ & _ & ->)
    | (first & rest & _ & _ & _ & _ & _ & _ & ->)]]]];
    simpl; auto.
Qed.

(** X3.  The test is written only with a decision: if [analyze_test]
    returns a test that differs from the one it received, then that test
    was running and met the floor, the answer is 'completed', the test is
    now marked significant, and the p-value stored is below 0.05. *)
Theorem analyze_test_writes_only_decisions :
  forall (t t' : ABTest.t) (a : analysis),
    analyze_test chi2 t = Ok (a, t') ->
    t' <> t ->
    ABTest.status t = "running"%string /\
    meets_sample_floor t /\
    a_status a = Some "completed"%string /\
    ABTest.is_significant t' = true /\
    exists p, ABTest.p_value t' = Some p /\ fltb p (dec 5 2) = true.
Proof.
  intros t t' a H Hneq. apply analyze_test_inv in H.
  destruct H as [(_ & _ & E) | [(_ & _ & _ & E) | [(_ & _ & _ & _ & E)
    | [(results & _ & _ & _ & _ & _ & _ & E)
    | (first & rest & Hs & Hf & _ & Hres & Hsig & -> & ->)]]]];
    try (exfalso; apply Hneq; exact E).
  repeat split; auto.
  destruct (first_entry_compares_first_two chi2 t first rest Hres)
    as (v0 & v1 & others & _ & Hc & _).
  apply significance_cases in Hc.
  destruct Hc as [E | [E | (p & m_a & m_b & _ & _ & Hp & Hv & _)]].
  - rewrite E in Hsig. discriminate Hsig.
  - rewrite E in Hsig. discriminate Hsig.
  - exists (p_value (result first)). split; [reflexivity |].
    rewrite Hv, <- Hp. exact Hsig.
Qed.

(** A second analysis repeats the first. *)
Lemma analyze_test_again (t t' : ABTest.t) (a : analysis) :
  analyze_test chi2 t = Ok (a, t') ->
  analyze_test chi2 t' = Ok (a, t').
Proof.
  intros H. pose proof H as H0. apply analyze_test_inv in H.
  destruct H as [(_ & _ & ->) | [(_ & _ & _ & ->) | [(_ & _ & _ & _ & ->)
    | [(results & _ & _ & _ & _ & _ & _ & ->)
    | (first & rest & Hs & Hf & Hl & Hres & Hsig & -> & ->)]]]];
    try exact H0.
  rewrite (analyze_test_decision chi2
             (set_decision t (winner (result first)) (p_value (result first)))
             (first :: rest)); auto.
  rewrite Hsig. reflexivity.
Qed.

(** X4.  Analysing again the test that an analysis returned gives the
    same answer and the same test. *)
Theorem analyze_test_idempotent :
  forall (t t' : ABTest.t) (a : analysis),
    analyze_test chi2 t = Ok (a, t') ->
    analyze_test chi2 t' = Ok (a, t').
Proof. exact analyze_test_again. Qed.

(** The improvement carried by a significant comparison can be shown
    with one decimal. *)
Lemma improvement_can_be_shown (v0 v1 : ABTestVariation.t) (metric : string)
    (r : significance) :
  calculate_statistical_significance chi2 v0 v1 metric = Ok r ->
  significant r = true ->
  exists shown,
    format_1f match improvement r with
              | Some x => x
              | None => PyInt 0
              end = Ok shown.
Proof.
  intros Hc Hsig. apply significance_cases in Hc.
  destruct Hc as [E | [E | (p & m_a & m_b & _ & _ & _ & _ & _ & _ & _ & Hi)]].
  - rewrite E in Hsig. discriminate Hsig.
  - rewrite E in Hsig. discriminate Hsig.
  - destruct Hi as [-> | [f ->]]; eexists; reflexivity.
Qed.

(** What [get_recommendation] returns, from what [analyze_test] does. *)
Lemma get_recommendation_follows (t t' : ABTest.t) (a : analysis) :
  analyze_test chi2 t = Ok (a, t') ->
  exists recommendations,
    get_recommendation chi2 t = Ok (recommendations, t') /\
    (List.length recommendations <= 1)%nat /\
    (recommendations = [] <-> a_error a <> None) /\
    (forall r, In r recommendations ->
       (a_status a = Some "insufficient_data"%string /\
        r_type r = "wait"%string /\ r_priority r = "high"%string) \/
       (a_status a = Some "completed"%string /\
        r_type r = "action"%string /\ r_priority r = "high"%string) \/
       (a_status a = Some "inconclusive"%string /\
        r_type r = "extend"%string /\ r_priority r = "medium"%string)).
Proof.
  intros H. pose proof H as H0. apply analyze_test_inv in H.
  unfold get_recommendation. rewrite H0.
  destruct H as [(_ & -> & ->) | [(_ & _ & -> & ->) | [(_ & _ & _ & -> & ->)
    | [(results & _ & _ & _ & _ & _ & -> & ->)
    | (first & rest & Hs & Hf & Hl & Hres & Hsig & -> & ->)]]]]; simpl.
  - eexists. split; [reflexivity |]. simpl.
    repeat split; auto; try discriminate. intros r [].
  - eexists. split; [reflexivity |]. simpl.
    repeat split; auto; try discriminate.
    + intros E. exfalso. apply E. reflexivity.
    + intros r [<- | []]. left. auto.
  - eexists. split; [reflexivity |]. simpl.
    repeat split; auto; try discriminate. intros r [].
  - eexists. split; [reflexivity |]. simpl.
    repeat split; auto; try discriminate.
    + intros E. exfalso. apply E. reflexivity.
    + intros r [<- | []]. right. right. auto.
  - destruct (first_entry_compares_first_two chi2 t first rest Hres)
      as (v0 & v1 & others & _ & Hc & _).
    destruct (improvement_can_be_shown _ _ _ _ Hc Hsig) as (shown & ->).
    simpl. eexists. split; [reflexivity |]. simpl.
    repeat split; auto; try discriminate.
    + intros E. exfalso. apply E. reflexivity.
    + intros r [<- | []]. right. left. auto.
Qed.

(** X5.  Whenever [analyze_test] answers, [get_recommendation] returns
    too, with at most one recommendation: none exactly when the answer is
    an error (test not running, fewer than two variations), otherwise
    'wait' (high) for insufficient data, 'action' (high) for a completed
    analysis and 'extend' (medium) for an inconclusive one. *)
Theorem get_recommendation_one_per_answer :
  forall (t t' : ABTest.t) (a : analysis),
    analyze_test chi2 t = Ok (a, t') ->
    exists recommendations,
      get_recommendation chi2 t = Ok (recommendations, t') /\
      (List.length recommendations <= 1)%nat /\
      (recommendations = [] <-> a_error a <> None) /\
      (forall r, In r recommendations ->
         (a_status a = Some "insufficient_data"%string /\
          r_type r = "wait"%string /\ r_priority r = "high"%string) \/
         (a_status a = Some "completed"%string /\
          r_type r = "action"%string /\ r_priority r = "high"%string) \/
         (a_status a = Some "inconclusive"%string /\
          r_type r = "extend"%string /\ r_priority r = "medium"%string)).
Proof. exact get_recommendation_follows. Qed.

(** X6.  The two calls of [AnalyzeABTestView.get]: after [analyze_test],
    [get_recommendation] on the test it left returns the advice that it
    would have returned on the original test, and leaves that test as it
    is. *)
Theorem get_recommendation_after_analysis :
  forall (t t' : ABTest.t) (a : analysis),
    analyze_test chi2 t = Ok (a, t') ->
    exists recommendations,
      get_recommendation chi2 t' = Ok (recommendations, t') /\
      get_recommendation chi2 t = Ok (recommendations, t').
Proof.
  intros t t' a H.
  destruct (get_recommendation_follows t t' a H) as (recs & Hr & _).
  exists recs. split; [| exact Hr].
  pose proof (analyze_test_again t t' a H) as H'.
  unfold get_recommendation in *. rewrite H' . rewrite H in Hr. exact Hr.
Qed.

Lemma mapM_total {A B : Type} (f : A -> outcome B) (g : A -> B) (l : list A) :
  (forall x, f x = Ok (g x)) -> mapM f l = Ok (map g l).
Proof.
  intros Hf. induction l as [| x t IH]; simpl; [reflexivity |].
  rewrite Hf, IH. reflexivity.
Qed.

(** X7.  A running test whose success_metric is neither 'ctr' nor
    'conversion_rate' can never complete: with the floor met and two
    variations or more, the answer is 'inconclusive', every comparison
    listed is the not-significant default, the chi-square routine is not
    consulted and the test is unchanged. *)
Theorem analyze_test_unknown_metric_inconclusive :
  forall t : ABTest.t,
    ABTest.status t = "running"%string ->
    meets_sample_floor t ->
    (2 <= List.length (ABTest.variations t))%nat ->
    ~ known_metric (ABTest.success_metric t) ->
    exists results,
      analyze_test chi2 t = Ok (answer_inconclusive results, t) /\
      Forall (fun e => result e = unknown_metric) results.
Proof.
  intros t Hs Hf Hl Hm.
  assert (Hres : pairwise_results chi2 t
                 = Ok (map (fun ab => mk_entry (ABTestVariation.name (fst ab))
                                        (ABTestVariation.name (snd ab))
                                        unknown_metric)
                           (pairs (order_by_name (ABTest.variations t))))).
  { unfold pairwise_results. apply mapM_total. intros [va vb].
    unfold compare_pair, calculate_statistical_significance. cbv zeta.
    destruct (String.eqb (ABTest.success_metric t) "ctr") eqn:E1.
    { apply String.eqb_eq in E1. exfalso. apply Hm. left. exact E1. }
    destruct (String.eqb (ABTest.success_metric t) "conversion_rate") eqn:E2.
    { apply String.eqb_eq in E2. exfalso. apply Hm. right. exact E2. }
    reflexivity. }
  remember (map _ _) as rs eqn:Ers in Hres.
  assert (Hall : Forall (fun e => result e = unknown_metric) rs).
  { apply Forall_forall. intros e He. rewrite Ers in He.
    apply in_map_iff in He. destruct He as (ab & <- & _). reflexivity. }
  exists rs. split; [| exact Hall].
  rewrite (analyze_test_decision chi2 t rs Hs Hf Hl Hres).
  destruct rs as [| first rest]; [reflexivity |].
  apply Forall_inv in Hall. rewrite Hall. reflexivity.
Qed.

(** X8.  When the comparison of any pair raises, [analyze_test] raises
    the same exception and nothing is stored, also when an earlier
    comparison was significant. *)
Theorem analyze_test_raises_with_a_comparison :
  forall (t : ABTest.t) (e : exn),
    ABTest.status t = "running"%string ->
    meets_sample_floor t ->
    (2 <= List.length (ABTest.variations t))%nat ->
    pairwise_results chi2 t = Raise e ->
    analyze_test chi2 t = Raise e /\ get_recommendation chi2 t = Raise e.
Proof.
  intros t e Hs Hf Hl Hres.
  assert (H : analyze_test chi2 t = Raise e).
  { unfold analyze_test. rewrite Hs. simpl.
    apply check_minimum_sample_size_spec in Hf. rewrite Hf. simpl.
    rewrite order_by_name_length.
    assert (Hn : (Z.of_nat (List.length (ABTest.variations t)) <? 2) = false)
      by (apply Z.ltb_ge; lia).
    unfold pairwise_results in Hres. rewrite Hn, Hres. reflexivity. }
  split; [exact H |].
  unfold get_recommendation. rewrite H. reflexivity.
Qed.

End ServiceBehaviour.

Section ServiceScenarios.

Import ABTestingService Scenario.

Lemma running_test_analysis :
  analyze_test chi2_arms running_test
  = Ok (answer_completed arms_result, decided_test).
Proof. vm_compute. reflexivity. Qed.

Lemma three_arm_test_meets_floor : meets_sample_floor three_arm_test.
Proof. repeat constructor; simpl; lia. Qed.

(** The two-variation theorem at a test with a single arm. *)
Lemma analyze_test_needs_two_variations_witness :
  analyze_test chi2_unavailable single_arm_test
  = Ok (answer_too_few, single_arm_test).
Proof.
  apply (analyze_test_needs_two_variations chi2_unavailable single_arm_test).
  - reflexivity.
  - repeat constructor; simpl; lia.
  - simpl. lia.
Defined.

(** The configuration theorem at the scenario test. *)
Lemma analyze_test_preserves_configuration_witness :
  ABTest.status decided_test = ABTest.status running_test /\
  ABTest.success_metric decided_test = ABTest.success_metric running_test /\
  ABTest.min_sample_size decided_test = ABTest.min_sample_size running_test /\
  ABTest.variations decided_test = ABTest.variations running_test.
Proof.
  apply (analyze_test_preserves_configuration chi2_arms running_test
           decided_test (answer_completed arms_result)).
  vm_compute. reflexivity.
Defined.

(** The decision theorem at the scenario test. *)
Lemma analyze_test_writes_only_decisions_witness :
  ABTest.status running_test = "running"%string /\
  meets_sample_floor running_test /\
  a_status (answer_completed arms_result) = Some "completed"%string /\
  ABTest.is_significant decided_test = true /\
  exists p, ABTest.p_value decided_test = Some p /\ fltb p (dec 5 2) = true.
Proof.
  apply (analyze_test_writes_only_decisions chi2_arms running_test
           decided_test (answer_completed arms_result)).
  - vm_compute. reflexivity.
  - discriminate.
Defined.

(** The idempotence theorem at the scenario test. *)
Lemma analyze_test_idempotent_witness :
  analyze_test chi2_arms decided_test
  = Ok (answer_completed arms_result, decided_test).
Proof.
  apply (analyze_test_idempotent chi2_arms running_test).
  vm_compute. reflexivity.
Defined.

(** The advice theorem at the short test: one 'wait'. *)
Lemma get_recommendation_one_per_answer_witness :
  exists recommendations,
    get_recommendation chi2_unavailable short_test
    = Ok (recommendations, short_test) /\
    (List.length recommendations <= 1)%nat /\
    (recommendations = [] <-> a_error (answer_insufficient 1000) <> None) /\
    (forall r, In r recommendations ->
       (a_status (answer_insufficient 1000) = Some "insufficient_data"%string /\
        r_type r = "wait"%string /\ r_priority r = "high"%string) \/
       (a_status (answer_insufficient 1000) = Some "completed"%string /\
        r_type r = "action"%string /\ r_priority r = "high"%string) \/
       (a_status (answer_insufficient 1000) = Some "inconclusive"%string /\
        r_type r = "extend"%string /\ r_priority r = "medium"%string)).
Proof.
  apply (get_recommendation_one_per_answer chi2_unavailable short_test
           short_test (answer_insufficient 1000)).
  vm_compute. reflexivity.
Defined.

(** The two-call theorem at the scenario test. *)
Lemma get_recommendation_after_analysis_witness :
  exists recommendations,
    get_recommendation chi2_arms decided_test
    = Ok (recommendations, decided_test) /\
    get_recommendation chi2_arms running_test
    = Ok (recommendations, decided_test).
Proof.
  apply (get_recommendation_after_analysis chi2_arms running_test
           decided_test (answer_completed arms_result)).
  vm_compute. reflexivity.
Defined.

(** The unknown-metric theorem at the test measured on 'cpc'. *)
Lemma analyze_test_unknown_metric_inconclusive_witness :
  exists results,
    analyze_test chi2_unavailable cpc_test
    = Ok (answer_inconclusive results, cpc_test) /\
    Forall (fun e => result e = unknown_metric) results.
Proof.
  apply (analyze_test_unknown_metric_inconclusive chi2_unavailable cpc_test).
  - reflexivity.
  - repeat constructor; simpl; lia.
  - simpl. lia.
  - intros [H | H]; discriminate H.
Defined.

(** The exception theorem at the test with three arms: the comparison
    of A with B is significant, that of A with C has a negative cell. *)
Lemma analyze_test_raises_with_a_comparison_witness :
  analyze_test chi2_arms three_arm_test = Raise ValueError /\
  get_recommendation chi2_arms three_arm_test = Raise ValueError.
Proof.
  apply (analyze_test_raises_with_a_comparison chi2_arms three_arm_test).
  - reflexivity.
  - repeat constructor; simpl; lia.
  - simpl. lia.
  - vm_compute. reflexivity.
Defined.

End ServiceScenarios.

(* ================================================================= *)
(** * Further properties of the roll-up and of the daily record *)

Section RollUp.

Import CampaignAnalyticsSummary.

(** X9.  The final [min(score, 100)] never cuts anything: for every
    summary, rates that are NaN included, the score is the plain sum of
    the points of the three chains, which are at most 30, 30 and 40.
    Hence the score is one of 0, 10, ..., 100, and it is 100 only for a
    summary in the top band of all three rates. *)
Theorem performance_score_never_capped :
  forall self : t,
    _calculate_performance_score self
    = ctr_points self + conversion_points self + roas_points self /\
    0 <= ctr_points self <= 30 /\
    0 <= conversion_points self <= 30 /\
    0 <= roas_points self <= 40 /\
    0 <= _calculate_performance_score self <= 100 /\
    (_calculate_performance_score self) mod 10 = 0 /\
    (_calculate_performance_score self = 100 <->
     num_ge (avg_ctr self) (PyInt 5) = true /\
     num_ge (avg_conversion_rate self) (PyInt 10) = true /\
     num_ge (roas self) (PyInt 5) = true).
Proof.
  intros self.
  unfold _calculate_performance_score, ctr_points, conversion_points,
    roas_points. cbv zeta.
  destruct (num_ge (avg_ctr self) (PyInt 5));
    [| destruct (num_ge (avg_ctr self) (PyInt 3));
       [| destruct (num_ge (avg_ctr self) (PyInt 1))]];
    (destruct (num_ge (avg_conversion_rate self) (PyInt 10));
     [| destruct (num_ge (avg_conversion_rate self) (PyInt 5));
        [| destruct (num_ge (avg_conversion_rate self) (PyInt 2))]]);
    (destruct (num_ge (roas self) (PyInt 5));
     [| destruct (num_ge (roas self) (PyInt 3));
        [| destruct (num_ge (roas self) (PyInt 2));
           [| destruct (num_ge (roas self) (PyInt 1))]]]);
    simpl;
    (split; [reflexivity |]);
    (split; [lia |]); (split; [lia |]); (split; [lia |]);
    (split; [lia |]); (split; [reflexivity |]);
    (split; [intros H; try discriminate H; repeat split; reflexivity
            | intros (H1 & H2 & H3);
              try discriminate H1; try discriminate H2; try discriminate H3;
              reflexivity]).
Qed.

(** The rubric does not read the score field. *)
Lemma score_ignores_score (self : t) (n : Z) :
  _calculate_performance_score (set_performance_score self n)
  = _calculate_performance_score self.
Proof. destruct self. reflexivity. Qed.

(** X10.  The summary that [update_metrics] hands to [save] is
    consistent: its score is the rubric applied to the rates it carries,
    and its four totals are the sums over the records. *)
Theorem update_metrics_result_consistent :
  forall (self once : t) (daily_data : list DailyAnalytics.row),
    update_metrics self daily_data = Ok once ->
    performance_score once = _calculate_performance_score once /\
    total_impressions once
    = sum_int (map DailyAnalytics.row_impressions daily_data) /\
    total_clicks once = sum_int (map DailyAnalytics.row_clicks daily_data) /\
    total_conversions once
    = sum_int (map DailyAnalytics.row_conversions daily_data) /\
    total_spend once = sum_spend daily_data.
Proof.
  intros self once daily_data.
  unfold update_metrics.
  destruct self as [i c v s a p r o n]. unfold set_totals. simpl.
  generalize (sum_int (map DailyAnalytics.row_impressions daily_data)).
  generalize (sum_int (map DailyAnalytics.row_clicks daily_data)).
  generalize (sum_int (map DailyAnalytics.row_conversions daily_data)).
  generalize (sum_spend daily_data).
  intros S V C I.
  destruct (0 <? I); simpl;
    [destruct (int_truediv C I) as [q |]; simpl; [| discriminate] |];
    (destruct (0 <? C); simpl;
     [destruct (DecimalField.to_float S) as [x |]; simpl; [| discriminate];
      destruct (float_of_int C) as [d |]; simpl; [| discriminate];
      destruct (float_truediv x d) as [y |]; simpl; [| discriminate];
      destruct (int_truediv V C) as [z |]; simpl; [| discriminate] |]);
    (destruct (DecimalField.gt0 S); simpl;
     [ destruct (DecimalField.to_float S) as [x' |]; simpl; [| try discriminate];
       destruct (float_of_int (V * 50)) as [d' |]; simpl; [| try discriminate];
       destruct (float_truediv d' x') as [y' |]; simpl; [| try discriminate] |]);
    intros H; injection H as <-; simpl; repeat split; reflexivity.
Qed.

Lemma fold_add_shift (l : list Z) (a b : Z) :
  fold_left Z.add l (a + b) = a + fold_left Z.add l b.
Proof.
  revert b. induction l as [| x t IH]; intros b; simpl; [reflexivity |].
  rewrite <- IH. f_equal. lia.
Qed.

Lemma sum_int_cons (x : Z) (l : list Z) : sum_int (x :: l) = x + sum_int l.
Proof.
  unfold sum_int. simpl. rewrite <- fold_add_shift. f_equal. lia.
Qed.

Lemma sum_int_permutation (l l' : list Z) :
  Permutation l l' -> sum_int l = sum_int l'.
Proof.
  induction 1 as [| x l l' _ IH | x y l | l l' l'' _ IH1 _ IH2].
  - reflexivity.
  - rewrite !sum_int_cons, IH. reflexivity.
  - rewrite !sum_int_cons. lia.
  - congruence.
Qed.

Lemma sum_spend_permutation (l l' : list DailyAnalytics.row) :
  Permutation l l' -> sum_spend l = sum_spend l'.
Proof.
  intros H. unfold sum_spend.
  destruct l as [| x t], l' as [| x' t'].
  - reflexivity.
  - apply Permutation_nil in H. discriminate H.
  - apply Permutation_sym, Permutation_nil in H. discriminate H.
  - f_equal. apply sum_int_permutation, Permutation_map. exact H.
Qed.

(** X11.  The roll-up does not depend on the order in which the
    database returns the records. *)
Theorem update_metrics_order_independent :
  forall (self : t) (daily_data daily_data' : list DailyAnalytics.row),
    Permutation daily_data daily_data' ->
    update_metrics self daily_data = update_metrics self daily_data'.
Proof.
  intros self l l' H. unfold update_metrics.
  rewrite (sum_int_permutation _ _
             (Permutation_map DailyAnalytics.row_impressions H)).
  rewrite (sum_int_permutation _ _
             (Permutation_map DailyAnalytics.row_clicks H)).
  rewrite (sum_int_permutation _ _
             (Permutation_map DailyAnalytics.row_conversions H)).
  rewrite (sum_spend_permutation _ _ H).
  reflexivity.
Qed.

(** X12.  When the records hold impressions, clicks and spend (each
    total positive), the roll-up is a function of the records alone:
    whatever the summary held before, the outcome is the same. *)
Theorem update_metrics_forgets_prior_state :
  forall (self self' : t) (daily_data : list DailyAnalytics.row),
    0 < sum_int (map DailyAnalytics.row_impressions daily_data) ->
    0 < sum_int (map DailyAnalytics.row_clicks daily_data) ->
    0 < sum_int (map DailyAnalytics.row_spend daily_data) ->
    update_metrics self daily_data = update_metrics self' daily_data.
Proof.
  intros self self' daily_data Hi Hc Hs.
  assert (Hg : DecimalField.gt0 (sum_spend daily_data) = true).
  { unfold sum_spend. destruct daily_data as [| x t].
    - unfold sum_int in Hs. simpl in Hs. lia.
    - simpl. apply Z.ltb_lt. exact Hs. }
  apply Z.ltb_lt in Hi, Hc.
  unfold update_metrics.
  destruct self as [i c v s a p r o n], self' as [i' c' v' s' a' p' r' o' n'].
  unfold set_totals. simpl.
  revert Hi Hc Hg.
  generalize (sum_int (map DailyAnalytics.row_impressions daily_data)).
  generalize (sum_int (map DailyAnalytics.row_clicks daily_data)).
  generalize (sum_int (map DailyAnalytics.row_conversions daily_data)).
  generalize (sum_spend daily_data).
  intros S V C I Hi Hc Hg.
  rewrite Hi. simpl.
  destruct (int_truediv C I) as [q |]; simpl; [| reflexivity].
  rewrite Hc. simpl.
  destruct (DecimalField.to_float S) as [x |] eqn:Ex; simpl; [| reflexivity].
  destruct (float_of_int C) as [d |]; simpl; [| reflexivity].
  destruct (float_truediv x d) as [y |]; simpl; [| reflexivity].
  destruct (int_truediv V C) as [z |]; simpl; [| reflexivity].
  rewrite Hg. simpl. rewrite Ex. simpl.
  destruct (float_of_int (V * 50)) as [d' |]; simpl; [| reflexivity].
  destruct (float_truediv d' x) as [y' |]; simpl; reflexivity.
Qed.

End RollUp.

Section DailyRecord.

Import DailyAnalytics.

(** X13.  [save] never touches the four counters, and saving the record
    that a [save] produced changes nothing. *)
Theorem save_idempotent :
  forall self saved : t,
    save self = Ok saved ->
    impressions saved = impressions self /\
    clicks saved = clicks self /\
    conversions saved = conversions self /\
    spend saved = spend self /\
    save saved = Ok saved.
Proof.
  intros self saved.
  destruct self as [i c v s a p q]. unfold save, spend_per. simpl.
  destruct (int_truediv c i) as [q1 |] eqn:E1;
    destruct (DecimalField.to_float s) as [x |] eqn:Ex;
    destruct (float_of_int c) as [dc |] eqn:Ec;
    destruct (float_of_int v) as [dv |] eqn:Ev;
    try destruct (float_truediv x dc) as [yc |] eqn:Etc;
    try destruct (float_truediv x dv) as [yv |] eqn:Etv;
    destruct (0 <? i) eqn:Hi; destruct (0 <? c) eqn:Hc;
    destruct (0 <? v) eqn:Hv;
    repeat (progress (simpl;
                      rewrite ?E1, ?Ex, ?Ec, ?Ev, ?Etc, ?Etv, ?Hi, ?Hc, ?Hv));
    intros H; try discriminate H; injection H as <-;
    repeat (progress (simpl;
                      rewrite ?E1, ?Ex, ?Ec, ?Ev, ?Etc, ?Etv, ?Hi, ?Hc, ?Hv));
    repeat split; reflexivity.
Qed.

(** X14.  On a record whose impressions, clicks and conversions are all
    positive, the three derived fields are recomputed from the counters:
    the outcome of [save] does not depend on the ctr, cpc and cpa the
    record carried. *)
Theorem save_recomputes_with_traffic :
  forall (i c v : Z) (s : DecimalField.t) (ctr0 ctr1 : num)
         (cpc0 cpc1 cpa0 cpa1 : DecimalField.t),
    0 < i -> 0 < c -> 0 < v ->
    save (mk i c v s ctr0 cpc0 cpa0) = save (mk i c v s ctr1 cpc1 cpa1).
Proof.
  intros i c v s ctr0 ctr1 cpc0 cpc1 cpa0 cpa1 Hi Hc Hv.
  apply Z.ltb_lt in Hi, Hc, Hv.
  unfold save, spend_per. simpl. rewrite Hi. simpl.
  destruct (int_truediv c i) as [q |]; simpl; [| reflexivity].
  rewrite Hc. simpl.
  destruct (DecimalField.to_float s) as [x |] eqn:Ex; simpl; [| reflexivity].
  destruct (float_of_int c) as [dc |]; simpl; [| reflexivity].
  destruct (float_truediv x dc) as [yc |]; simpl; [| reflexivity].
  rewrite Hv. simpl. rewrite ?Ex. simpl.
  destruct (float_of_int v) as [dv |]; simpl; [| reflexivity].
  destruct (float_truediv x dv) as [yv |]; simpl; reflexivity.
Qed.

End DailyRecord.

Section RollUpScenarios.

Import Scenario.

(** The consistency theorem at the two-day scenario. *)
Lemma update_metrics_result_consistent_witness :
  CampaignAnalyticsSummary.performance_score two_day_summary
  = CampaignAnalyticsSummary._calculate_performance_score two_day_summary /\
  CampaignAnalyticsSummary.total_impressions two_day_summary
  = CampaignAnalyticsSummary.sum_int
      (map DailyAnalytics.row_impressions [day1; day2]) /\
  CampaignAnalyticsSummary.total_clicks two_day_summary
  = CampaignAnalyticsSummary.sum_int
      (map DailyAnalytics.row_clicks [day1; day2]) /\
  CampaignAnalyticsSummary.total_conversions two_day_summary
  = CampaignAnalyticsSummary.sum_int
      (map DailyAnalytics.row_conversions [day1; day2]) /\
  CampaignAnalyticsSummary.total_spend two_day_summary
  = CampaignAnalyticsSummary.sum_spend [day1; day2].
Proof.
  apply (update_metrics_result_consistent CampaignAnalyticsSummary.fresh).
  vm_compute. reflexivity.
Defined.

(** The order theorem at the two days, swapped. *)
Lemma update_metrics_order_independent_witness :
  CampaignAnalyticsSummary.update_metrics CampaignAnalyticsSummary.fresh
    [day1; day2]
  = CampaignAnalyticsSummary.update_metrics CampaignAnalyticsSummary.fresh
      [day2; day1].
Proof.
  apply update_metrics_order_independent. apply perm_swap.
Defined.

(** The prior-state theorem at the two days, from a fresh summary and
    from the summary of an earlier roll-up. *)
Lemma update_metrics_forgets_prior_state_witness :
  CampaignAnalyticsSummary.update_metrics CampaignAnalyticsSummary.fresh
    [day1; day2]
  = CampaignAnalyticsSummary.update_metrics two_day_summary [day1; day2].
Proof.
  apply update_metrics_forgets_prior_state; reflexivity.
Defined.

(** The idempotence theorem at the stored record of day1. *)
Lemma save_idempotent_witness :
  DailyAnalytics.impressions saved_day1 = DailyAnalytics.impressions stored_day1 /\
  DailyAnalytics.clicks saved_day1 = DailyAnalytics.clicks stored_day1 /\
  DailyAnalytics.conversions saved_day1
  = DailyAnalytics.conversions stored_day1 /\
  DailyAnalytics.spend saved_day1 = DailyAnalytics.spend stored_day1 /\
  DailyAnalytics.save saved_day1 = Ok saved_day1.
Proof.
  apply (save_idempotent stored_day1 saved_day1).
  vm_compute. reflexivity.
Defined.

(** The recomputation theorem at the counters of day1, from the field
    defaults and from stale values. *)
Lemma save_recomputes_with_traffic_witness :
  DailyAnalytics.save
    (DailyAnalytics.mk 1000 40 4 (DecimalField.Decimal 10000) (PyInt 0)
       (DecimalField.Number (PyInt 0)) (DecimalField.Number (PyInt 0)))
  = DailyAnalytics.save
      (DailyAnalytics.mk 1000 40 4 (DecimalField.Decimal 10000)
         (PyFloat (lit 9)) (DecimalField.Decimal 999)
         (DecimalField.Decimal 999)).
Proof.
  apply save_recomputes_with_traffic; reflexivity.
Defined.

End RollUpScenarios.

(* ================================================================= *)
(** * Further properties of the report views *)

Section WeeklyCap.

Import WeeklyReportView.

Lemma insert_by_key_permutation (x : recommendation) (l : list recommendation) :
  Permutation (insert_by_key x l) (x :: l).
Proof.
  induction l as [| y t IH]; simpl; [reflexivity |].
  destruct (sort_key x <=? sort_key y); [reflexivity |].
  rewrite IH. apply perm_swap.
Qed.

Lemma sort_by_key_permutation (l : list recommendation) :
  Permutation (sort_by_key l) l.
Proof.
  unfold sort_by_key. induction l as [| x t IH]; simpl; [reflexivity |].
  rewrite insert_by_key_permutation, IH. reflexivity.
Qed.

Lemma In_firstn {A : Type} (n : nat) (l : list A) (x : A) :
  In x (firstn n l) -> In x l.
Proof.
  revert n. induction l as [| y t IH]; intros [| n]; simpl; try tauto.
  intros [H | H]; [left; exact H | right; exact (IH n H)].
Qed.

Lemma with_priority_app (p : string) (l l' : list recommendation) :
  with_priority p (l ++ l') = with_priority p l ++ with_priority p l'.
Proof. apply filter_app. Qed.

Lemma with_priority_length (p : string) (l : list recommendation) :
  (List.length (with_priority p l) <= List.length l)%nat.
Proof. apply filter_length_le. Qed.

Lemma with_priority_all (p : string) (l : list recommendation) :
  Forall (fun r => priority r = p) l -> with_priority p l = l.
Proof.
  induction 1 as [| x t Hx Ht IH]; simpl; [reflexivity |].
  rewrite Hx, String.eqb_refl. f_equal. exact IH.
Qed.

Lemma with_priority_none (p : string) (l : list recommendation) :
  Forall (fun r => priority r <> p) l -> with_priority p l = [].
Proof.
  induction 1 as [| x t Hx Ht IH]; simpl; [reflexivity |].
  apply String.eqb_neq in Hx. rewrite Hx. exact IH.
Qed.

Lemma with_priority_carries (p : string) (l : list recommendation) :
  Forall (fun r => priority r = p) (with_priority p l).
Proof.
  apply Forall_forall. intros r Hr. apply filter_In in Hr.
  apply String.eqb_eq. tauto.
Qed.

Section Rules.

Variable repr_float : float -> string.
Variables (avg_ctr conversion_rate click_growth total_spend : num).
Variables (active_campaigns ads_generated : Z).
Variable (top_campaign : option campaign).
Variable (insights : insights_dict).

Let emitted : list recommendation :=
  emitted_recommendations repr_float avg_ctr conversion_rate click_growth
    total_spend active_campaigns ads_generated top_campaign insights.

Let returned : list recommendation :=
  _generate_weekly_recommendations repr_float avg_ctr conversion_rate
    click_growth total_spend active_campaigns ads_generated top_campaign
    insights.

(** Each rule of the table emits one recommendation at most. *)
Lemma rules_emit_one_at_most :
  (List.length (ctr_analysis repr_float avg_ctr) <= 1)%nat /\
  (List.length (conversion_rate_analysis repr_float avg_ctr conversion_rate)
   <= 1)%nat /\
  (List.length (growth_trend repr_float click_growth) <= 1)%nat /\
  (List.length (content_generation ads_generated) <= 1)%nat /\
  (List.length (budget_efficiency repr_float total_spend insights) <= 1)%nat /\
  (List.length (campaign_activity active_campaigns) <= 1)%nat /\
  (List.length (top_campaign_optimization top_campaign) <= 1)%nat.
Proof.
  unfold ctr_analysis, conversion_rate_analysis, growth_trend,
    content_generation, budget_efficiency, campaign_activity,
    top_campaign_optimization.
  repeat split.
  - destruct (num_lt avg_ctr (PyInt 2)); [| destruct (num_ge avg_ctr (PyInt 5))];
      cbv [List.length]; lia.
  - destruct (_ && _); cbv [List.length]; lia.
  - destruct (num_lt click_growth _); [| destruct (num_gt click_growth _)];
      cbv [List.length]; lia.
  - destruct (ads_generated <? 5); cbv [List.length]; lia.
  - destruct (_ && _); cbv [List.length]; lia.
  - destruct (active_campaigns =? 0); cbv [List.length]; lia.
  - destruct top_campaign as [top |]; [destruct (70 <? _) |];
      cbv [List.length]; lia.
Qed.

(** The content rule and the top-campaign rule never emit 'high'. *)
Lemma medium_rules_not_high :
  with_priority "high" (content_generation ads_generated) = [] /\
  with_priority "high" (top_campaign_optimization top_campaign) = [].
Proof.
  unfold content_generation, top_campaign_optimization. split.
  - destruct (ads_generated <? 5); reflexivity.
  - destruct top_campaign as [top |]; [destruct (70 <? _) |]; reflexivity.
Qed.

Lemma emitted_split :
  emitted
  = ctr_analysis repr_float avg_ctr
    ++ conversion_rate_analysis repr_float avg_ctr conversion_rate
    ++ growth_trend repr_float click_growth
    ++ content_generation ads_generated
    ++ budget_efficiency repr_float total_spend insights
    ++ campaign_activity active_campaigns
    ++ top_campaign_optimization top_campaign.
Proof.
  unfold emitted, emitted_recommendations. cbv zeta.
  rewrite app_nil_l, <- !app_assoc. reflexivity.
Qed.

Lemma emitted_length : (List.length emitted <= 7)%nat.
Proof.
  rewrite emitted_split, !length_app.
  pose proof rules_emit_one_at_most as (H1 & H2 & H3 & H4 & H5 & H6 & H7).
  lia.
Qed.

Lemma emitted_high_length :
  (List.length (with_priority "high" emitted) <= 5)%nat.
Proof.
  rewrite emitted_split, !with_priority_app, !length_app.
  pose proof rules_emit_one_at_most as (H1 & H2 & H3 & H4 & H5 & H6 & H7).
  pose proof medium_rules_not_high as (M1 & M2).
  rewrite M1, M2. change (@List.length recommendation []) with 0%nat.
  pose proof (with_priority_length "high" (ctr_analysis repr_float avg_ctr)).
  pose proof (with_priority_length "high"
                (conversion_rate_analysis repr_float avg_ctr conversion_rate)).
  pose proof (with_priority_length "high" (growth_trend repr_float click_growth)).
  pose proof (with_priority_length "high"
                (budget_efficiency repr_float total_spend insights)).
  pose proof (with_priority_length "high" (campaign_activity active_campaigns)).
  lia.
Qed.

Lemma returned_layout :
  returned = firstn 6 (with_priority "high" emitted
                       ++ with_priority "medium" emitted
                       ++ with_priority "low" emitted).
Proof.
  unfold returned, _generate_weekly_recommendations. cbv zeta. fold emitted.
  f_equal.
  rewrite (sorted_layout (sort_by_key emitted)
             (sort_by_key_sorted emitted)
             (sort_by_key_Forall _ _
                (emitted_keys repr_float avg_ctr conversion_rate click_growth
                   total_spend active_campaigns ads_generated top_campaign
                   insights))) at 1.
  rewrite !with_priority_sort_by_key. reflexivity.
Qed.

(** X15.  The cap of six never removes a 'high' recommendation: the
    table has five rules that can emit 'high', and the list returned
    holds every 'high' recommendation emitted, in emission order. *)
Theorem weekly_high_recommendations_survive :
  with_priority "high" returned = with_priority "high" emitted.
Proof.
  rewrite returned_layout.
  pose proof emitted_high_length as Hlen.
  pose proof (with_priority_carries "high" emitted) as Hhigh.
  remember (with_priority "high" emitted) as highs eqn:Eh.
  remember (with_priority "medium" emitted ++ with_priority "low" emitted)
    as others eqn:Eo.
  rewrite firstn_app, (firstn_all2 highs) by lia.
  rewrite with_priority_app, (with_priority_all "high" highs Hhigh).
  rewrite (with_priority_none "high" (firstn (6 - List.length highs) others));
    [apply app_nil_r |].
  rewrite Eo.
  apply firstn_Forall, Forall_app. split.
  - eapply Forall_impl; [| apply (with_priority_carries "medium")].
    simpl. intros r ->. discriminate.
  - eapply Forall_impl; [| apply (with_priority_carries "low")].
    simpl. intros r ->. discriminate.
Qed.

(** X16.  The rules emit seven recommendations at most, so the cap
    removes one at most; the list returned has min(6, n) entries for n
    emitted, and when six or fewer were emitted it holds exactly those. *)
Theorem weekly_cap_drops_one_at_most :
  (List.length emitted <= 7)%nat /\
  List.length returned = Nat.min 6 (List.length emitted) /\
  ((List.length emitted <= 6)%nat -> Permutation returned emitted).
Proof.
  split; [exact emitted_length |].
  unfold returned, _generate_weekly_recommendations. cbv zeta. fold emitted.
  pose proof (Permutation_length (sort_by_key_permutation emitted)) as Hl.
  split.
  - rewrite length_firstn, Hl. reflexivity.
  - intros H. rewrite firstn_all2 by lia. apply sort_by_key_permutation.
Qed.

(** What the two titles tell about the click-through rate. *)
Lemma emitted_title_inv (r : recommendation) :
  In r emitted ->
  (title r = "Improve Click-Through Rate"%string ->
   num_lt avg_ctr (PyInt 2) = true) /\
  (title r = "Optimize Conversion Funnel"%string ->
   num_gt avg_ctr (PyInt 2) = true).
Proof.
  rewrite emitted_split, !in_app_iff.
  unfold ctr_analysis, conversion_rate_analysis, growth_trend,
    content_generation, budget_efficiency, campaign_activity,
    top_campaign_optimization.
  intros [H | [H | [H | [H | [H | [H | H]]]]]].
  - destruct (num_lt avg_ctr (PyInt 2)) eqn:E;
      [| destruct (num_ge avg_ctr (PyInt 5))];
      simpl in H; try contradiction;
      destruct H as [<- | []]; split; intros T;
      try reflexivity; discriminate T.
  - destruct (num_lt conversion_rate (PyInt 5)) eqn:E1;
      destruct (num_gt avg_ctr (PyInt 2)) eqn:E2;
      simpl in H; try contradiction;
      destruct H as [<- | []]; split; intros T;
      try reflexivity; discriminate T.
  - destruct (num_lt click_growth _); [| destruct (num_gt click_growth _)];
      simpl in H; try contradiction;
      destruct H as [<- | []]; split; intros T; discriminate T.
  - destruct (ads_generated <? 5); simpl in H; try contradiction;
      destruct H as [<- | []]; split; intros T; discriminate T.
  - destruct (_ && _); simpl in H; try contradiction;
      destruct H as [<- | []]; split; intros T; discriminate T.
  - destruct (active_campaigns =? 0); simpl in H; try contradiction;
      destruct H as [<- | []]; split; intros T; discriminate T.
  - destruct top_campaign as [top |]; [destruct (70 <? _) |];
      simpl in H; try contradiction;
      destruct H as [<- | []]; split; intros T; simpl in T; discriminate T.
Qed.

(** X17.  'Improve Click-Through Rate' and 'Optimize Conversion Funnel'
    never appear together in the list returned: the first needs a rate
    below 2, the second a rate above 2. *)
Theorem weekly_ctr_and_funnel_exclusive :
  forall r1 : recommendation,
    In r1 returned ->
    title r1 = "Improve Click-Through Rate"%string ->
    forall r2 : recommendation,
      In r2 returned ->
      title r2 <> "Optimize Conversion Funnel"%string.
Proof.
  intros r1 H1 T1 r2 H2 T2.
  assert (Hsub : forall r, In r returned -> In r emitted).
  { intros r Hr. unfold returned, _generate_weekly_recommendations in Hr.
    cbv zeta in Hr. apply In_firstn in Hr.
    apply (Permutation_in r (sort_by_key_permutation _)). exact Hr. }
  apply Hsub, emitted_title_inv in H1. apply Hsub, emitted_title_inv in H2.
  destruct H1 as [H1 _], H2 as [_ H2].
  specialize (H1 T1). specialize (H2 T2).
  apply num_gt_asym in H2. unfold num_gt in H2. congruence.
Qed.

End Rules.

End WeeklyCap.

Section NextSteps.

Import WeeklyReportView.

Variable repr_float : float -> string.
Variables (top_campaign worst_campaign : option campaign).
Variable (avg_ctr : num).
Variables (ads_generated active_campaigns : Z).

Let conditional : list string :=
  conditional_steps repr_float top_campaign worst_campaign avg_ctr
    ads_generated active_campaigns.

Let steps : list string :=
  _generate_next_steps repr_float top_campaign worst_campaign avg_ctr
    ads_generated active_campaigns.

Lemma conditional_steps_length : (List.length conditional <= 5)%nat.
Proof.
  unfold conditional, conditional_steps. cbv zeta.
  destruct top_campaign as [top |];
    (destruct worst_campaign as [worst |];
     [destruct (performance_score worst <? 50) |]);
    destruct (num_lt avg_ctr (PyInt 3));
    destruct (ads_generated <? 10);
    destruct (active_campaigns <? 3);
    rewrite ?length_app; cbn [List.length]; lia.
Qed.

(** X18.  The list of next steps has between two and five entries.  With
    three conditional steps or fewer it ends with the two standing steps;
    when all five conditions hold, the cap of five removes both standing
    steps and only the conditional ones are returned. *)
Theorem next_steps_shape :
  (2 <= List.length steps <= 5)%nat /\
  ((List.length conditional <= 3)%nat ->
   steps = conditional
           ++ ["Check audience insights for optimal posting times"%string;
               "Review budget allocation across all campaigns"%string]) /\
  (List.length conditional = 5%nat -> steps = conditional).
Proof.
  unfold steps, _generate_next_steps. cbv zeta. fold conditional.
  pose proof conditional_steps_length as Hc.
  rewrite <- app_assoc. simpl app.
  split; [| split].
  - rewrite length_firstn, length_app. simpl List.length. lia.
  - intros H. apply firstn_all2. rewrite length_app. simpl List.length. lia.
  - intros H. rewrite firstn_app.
    replace (5 - List.length conditional)%nat with 0%nat by lia.
    rewrite firstn_0, app_nil_r. apply firstn_all2. lia.
Qed.

End NextSteps.

Section AudienceAdvice.

Import AudienceInsightsView.

(** X19.  The audience recommendations are two or three, in rule order
    and not sorted on priority: one of type 'performance' first, one of
    type 'timing' last, and between them one of type 'reach' exactly when
    the reach is below 10000 or above 100000.  The timing entry is 'high'
    when the trend is the string 'Decreasing' and 'low' for any other
    trend. *)
Theorem real_recommendations_shape :
  forall (repr_float : float -> string) (engagement_rate : num)
         (total_reach : Z) (trend : string) (change : num),
    exists performance timing : recommendation,
      r_type performance = "performance"%string /\
      r_type timing = "timing"%string /\
      (priority timing = "high"%string <-> trend = "Decreasing"%string) /\
      (priority timing = "low"%string <-> trend <> "Decreasing"%string) /\
      ((10000 <= total_reach <= 100000 /\
        _generate_real_recommendations repr_float engagement_rate total_reach
          trend change = [performance; timing]) \/
       ((total_reach < 10000 \/ 100000 < total_reach) /\
        exists reach,
          r_type reach = "reach"%string /\
          _generate_real_recommendations repr_float engagement_rate
            total_reach trend change = [performance; reach; timing])).
Proof.
  intros repr_float engagement_rate total_reach trend change.
  unfold _generate_real_recommendations. cbv zeta.
  destruct (String.eqb trend "Decreasing") eqn:Et;
    [apply String.eqb_eq in Et | apply String.eqb_neq in Et];
    (destruct (num_lt engagement_rate (PyInt 2));
     [| destruct (num_gt engagement_rate (PyInt 5))]);
    (destruct (total_reach <? 10000) eqn:E1;
     [apply Z.ltb_lt in E1
     | apply Z.ltb_ge in E1;
       destruct (100000 <? total_reach) eqn:E2;
       [apply Z.ltb_lt in E2 | apply Z.ltb_ge in E2]]);
    cbn [app];
    match goal with
    | |- context [ [?p; ?r; ?t] ] => exists p, t
    | |- context [ [?p; ?t] ] => exists p, t
    end;
    (split; [| split; [| split; [| split]]]);
    try match goal with
        | |- context [ [_; ?r; _] ] =>
            right; split; [lia | exists r; split; reflexivity]
        end;
    try (left; split; [lia | reflexivity]);
    try reflexivity;
    cbn [priority]; split; intros H;
    try assumption; try reflexivity; try discriminate H;
    try (exfalso; apply H; assumption); try (exfalso; apply Et; assumption).
Qed.

End AudienceAdvice.

Section ReportScenarios.

Import Scenario.

(** The cap theorem at a week that emits a single recommendation. *)
Lemma weekly_cap_drops_one_at_most_witness :
  Permutation low_ctr_week low_ctr_week_emitted.
Proof.
  apply (proj2 (proj2 (weekly_cap_drops_one_at_most plain_repr
                         (PyInt 1) (PyInt 0) (PyInt 0) (PyInt 0) 1 10 None
                         (WeeklyReportView.mk_insights (PyInt 0))))).
  vm_compute. lia.
Defined.

(** The exclusion theorem at the same week, whose only recommendation is
    'Improve Click-Through Rate'. *)
Lemma weekly_ctr_and_funnel_exclusive_witness :
  WeeklyReportView.title (hd blank_recommendation low_ctr_week)
  <> "Optimize Conversion Funnel"%string.
Proof.
  apply (weekly_ctr_and_funnel_exclusive plain_repr
           (PyInt 1) (PyInt 0) (PyInt 0) (PyInt 0) 1 10 None
           (WeeklyReportView.mk_insights (PyInt 0))
           (hd blank_recommendation low_ctr_week)).
  - left. reflexivity.
  - reflexivity.
  - left. reflexivity.
Defined.

(** The next-steps theorem where no condition holds and where all five
    do. *)
Lemma next_steps_shape_witness :
  WeeklyReportView._generate_next_steps plain_repr None None (PyInt 5) 10 3
  = ["Check audience insights for optimal posting times"%string;
     "Review budget allocation across all campaigns"%string] /\
  WeeklyReportView._generate_next_steps plain_repr
    (Some best_campaign) (Some worst_campaign) (PyInt 1) 3 0
  = WeeklyReportView.conditional_steps plain_repr
      (Some best_campaign) (Some worst_campaign) (PyInt 1) 3 0.
Proof.
  split.
  - apply (proj1 (proj2 (next_steps_shape plain_repr None None (PyInt 5) 10 3))).
    vm_compute. lia.
  - apply (proj2 (proj2 (next_steps_shape plain_repr
                           (Some best_campaign) (Some worst_campaign)
                           (PyInt 1) 3 0))).
    reflexivity.
Defined.

End ReportScenarios.

Section ComparisonCount.

Import ABTestingService.

Variable chi2 : Z -> Z -> Z -> Z -> outcome float.

(** X20.  The 'details' of an answer are a list of comparisons only in
    the 'inconclusive' answer; the list then has one entry for every
    unordered pair of variations, n(n-1)/2 for n variations, and the test
    comes back unchanged.  (The 'completed' answer carries the single
    result of the first pair instead.) *)
Theorem analyze_test_details_one_per_pair :
  forall (t t' : ABTest.t) (a : analysis) (results : list comparison_entry),
    analyze_test chi2 t = Ok (a, t') ->
    a_details a = Some (DetailsAll results) ->
    a_status a = Some "inconclusive"%string /\
    t' = t /\
    (2 * List.length results
     = List.length (ABTest.variations t)
       * (List.length (ABTest.variations t) - 1))%nat.
Proof.
  intros t t' a results H Hd.
  apply analyze_test_inv in H.
  destruct H as [(_ & -> & _) | [(_ & _ & -> & _) | [(_ & _ & _ & -> & _) | [H | H]]]];
    try discriminate Hd.
  - destruct H as (rs & _ & _ & _ & Hp & _ & -> & ->).
    simpl in Hd. injection Hd as ->.
    repeat split. eapply pairwise_results_length. exact Hp.
  - destruct H as (first & rest & _ & _ & _ & _ & _ & -> & _).
    discriminate Hd.
Qed.

End ComparisonCount.

Section ComparisonCountScenario.

Import ABTestingService.

(** The count theorem at the test measured on 'cpc', whose single pair
    is compared without a verdict. *)
Lemma analyze_test_details_one_per_pair_witness :
  a_status (answer_inconclusive
              [mk_entry "A" "B" unknown_metric])
  = Some "inconclusive"%string /\
  Scenario.cpc_test = Scenario.cpc_test /\
  (2 * List.length [mk_entry "A" "B" unknown_metric]
   = List.length (ABTest.variations Scenario.cpc_test)
     * (List.length (ABTest.variations Scenario.cpc_test) - 1))%nat.
Proof.
  apply (analyze_test_details_one_per_pair Scenario.chi2_unavailable
           Scenario.cpc_test Scenario.cpc_test
           (answer_inconclusive [mk_entry "A" "B" unknown_metric])
           [mk_entry "A" "B" unknown_metric]).
  - vm_compute. reflexivity.
  - reflexivity.
Defined.

End ComparisonCountScenario.
